(** * Inklyn: the multi-format extraction pipeline of [doc_processor.py]

    A shallow embedding of [DocumentProcessor] (format dispatch, the
    per-format extractors and the two-stage OCR chain) together with the
    part of the Python runtime it relies on, and the properties of the
    pipeline stated in the specification. *)

From Stdlib Require Import ZArith NArith List String Ascii Bool Lia.
From Stdlib Require Import Strings.Byte.
From Stdlib Require Import DecimalString.
From stdpp Require Import gmap strings list.

Local Open Scope N_scope.
#[local] Set Warnings "-register-all".

(** ** Python strings and bytes *)

(** A Python [str] is a sequence of Unicode code points, a [bytes] object
    a sequence of bytes. *)
Definition pystr := list N.
Definition pybytes := list byte.

(** An ASCII string literal of the source. *)
Definition lit (s : string) : pystr :=
  map N_of_ascii (list_ascii_of_string s).

Definition NL : N := 10.

(** [str(n)] and [{n}] in an f-string, for a non-negative integer. *)
Definition str_of_nat (n : nat) : pystr :=
  lit (NilEmpty.string_of_uint (Nat.to_uint n)).

(** [str.isspace] on one code point (the interpreter's whitespace set). *)
Definition is_space (c : N) : bool :=
  ((9 <=? c) && (c <=? 13)) || ((28 <=? c) && (c <=? 32))
  || (c =? 133) || (c =? 160) || (c =? 5760)
  || ((8192 <=? c) && (c <=? 8202))
  || (c =? 8232) || (c =? 8233) || (c =? 8239) || (c =? 8287)
  || (c =? 12288).

Fixpoint lstrip (s : pystr) : pystr :=
  match s with
  | c :: s' => if is_space c then lstrip s' else s
  | [] => []
  end.

(** [s.strip()] *)
Definition strip (s : pystr) : pystr := rev (lstrip (rev (lstrip s))).

(** Truth value of a [str] in a condition: non-empty. *)
Definition truthy (s : pystr) : bool :=
  match s with [] => false | _ :: _ => true end.

(** [s.split(sep)] for a one-character separator. *)
Fixpoint split (sep : N) (s : pystr) : list pystr :=
  match s with
  | [] => [[]]
  | c :: s' =>
      if c =? sep then [] :: split sep s'
      else match split sep s' with
           | w :: ws => (c :: w) :: ws
           | [] => [[c]]
           end
  end.

(** [sep.join(parts)] *)
Fixpoint join (sep : pystr) (parts : list pystr) : pystr :=
  match parts with
  | [] => []
  | [p] => p
  | p :: ps => p ++ sep ++ join sep ps
  end.

(** [l[-1]] on a list of strings known to be non-empty. *)
Definition last_item (l : list pystr) : pystr := List.last l [].

Definition is_ascii (c : N) : bool := c <? 128.

Definition ascii_lower (c : N) : N :=
  if (65 <=? c) && (c <=? 90) then c + 32 else c.

(** ** UTF-8 and Latin-1 codecs *)

Definition is_cont (b : N) : bool := (128 <=? b) && (b <=? 191).
Definition in_range (lo hi b : N) : bool := (lo <=? b) && (b <=? hi).
Definition cont_bits (b : N) : N := b - 128.

(** The strict UTF-8 decoder: well-formed sequences only (no overlong
    forms, no surrogates, nothing above U+10FFFF). [None] stands for
    [UnicodeDecodeError]. *)
Fixpoint utf8_decode_N (bs : list N) : option pystr :=
  match bs with
  | [] => Some []
  | b0 :: r0 =>
      if b0 <? 128 then cons b0 <$> utf8_decode_N r0
      else if in_range 194 223 b0 then
        match r0 with
        | b1 :: r1 =>
            if is_cont b1
            then cons ((b0 - 192) * 64 + cont_bits b1) <$> utf8_decode_N r1
            else None
        | _ => None
        end
      else if in_range 224 239 b0 then
        match r0 with
        | b1 :: b2 :: r2 =>
            if in_range (if b0 =? 224 then 160 else 128)
                        (if b0 =? 237 then 159 else 191) b1
               && is_cont b2
            then cons ((b0 - 224) * 4096 + cont_bits b1 * 64 + cont_bits b2)
                   <$> utf8_decode_N r2
            else None
        | _ => None
        end
      else if in_range 240 244 b0 then
        match r0 with
        | b1 :: b2 :: b3 :: r3 =>
            if in_range (if b0 =? 240 then 144 else 128)
                        (if b0 =? 244 then 143 else 191) b1
               && is_cont b2 && is_cont b3
            then cons ((b0 - 240) * 262144 + cont_bits b1 * 4096
                       + cont_bits b2 * 64 + cont_bits b3)
                   <$> utf8_decode_N r3
            else None
        | _ => None
        end
      else None
  end.

Definition utf8_decode (bs : pybytes) : option pystr :=
  utf8_decode_N (map Byte.to_N bs).

(** Latin-1 maps every byte to the code point of the same value. *)
Definition latin1_decode (bs : pybytes) : pystr := map Byte.to_N bs.

(** ** Python values *)

(** The dynamically typed values that reach the pipeline as arguments or
    leave it in the metadata mapping. *)
Inductive pyval : Type :=
| PNone
| PBool (b : bool)
| PInt (z : Z)
| PStr (s : pystr)
| PBytes (b : pybytes)
| PList (l : list pyval)
| PTuple (l : list pyval).

(** [type(v).__name__] *)
Definition type_name (v : pyval) : string :=
  match v with
  | PNone => "NoneType"
  | PBool _ => "bool"
  | PInt _ => "int"
  | PStr _ => "str"
  | PBytes _ => "bytes"
  | PList _ => "list"
  | PTuple _ => "tuple"
  end.

(** The values [json.loads] produces. A [dict] keeps its keys in insertion
    order; a float is carried as its IEEE-754 bit pattern. *)
Inductive json : Type :=
| JNull
| JBool (b : bool)
| JInt (z : Z)
| JFloat (bits : N)
| JStr (s : pystr)
| JList (l : list json)
| JDict (kvs : list (pystr * json)).

Definition json_type_name (d : json) : string :=
  match d with
  | JNull => "NoneType"
  | JBool _ => "bool"
  | JInt _ => "int"
  | JFloat _ => "float"
  | JStr _ => "str"
  | JList _ => "list"
  | JDict _ => "dict"
  end.

(** [isinstance(data, dict)] *)
Definition is_dict (d : json) : bool :=
  match d with JDict _ => true | _ => false end.

(** [list(data.keys()) if isinstance(data, dict) else None] *)
Definition json_keys (d : json) : pyval :=
  match d with
  | JDict kvs => PList (map (fun kv => PStr (fst kv)) kvs)
  | _ => PNone
  end.

(** ** Exceptions, output and the computation monad *)

(** Only subclasses of [Exception] are modelled; every [except Exception]
    and every bare [except] of the source catches all of them. *)
Inductive exc_class : Type :=
| UnicodeDecodeError
| AttributeError
| TypeError
| OtherException.

Definition exc_class_eqb (a b : exc_class) : bool :=
  match a, b with
  | UnicodeDecodeError, UnicodeDecodeError
  | AttributeError, AttributeError
  | TypeError, TypeError
  | OtherException, OtherException => true
  | _, _ => false
  end.

(** An exception object: its class and [str(e)]. *)
Record exn : Type := Exn { exn_class : exc_class; exn_str : pystr }.

(** What a call leaves behind besides its value: the lines printed to the
    terminal and the invocations of the two OCR engines. *)
Inductive event : Type :=
| Print (line : pystr)
| PrimaryOCR
| SecondaryOCR.

Definition event_is_secondary (e : event) : bool :=
  match e with SecondaryOCR => true | _ => false end.

Definition event_is_primary (e : event) : bool :=
  match e with PrimaryOCR => true | _ => false end.

(** A computation emits events and then returns or raises. *)
Definition M (A : Type) : Type := (list event * (exn + A))%type.

Definition ret {A} (a : A) : M A := ([], inr a).
Definition raise {A} (e : exn) : M A := ([], inl e).
Definition lift {A} (r : exn + A) : M A := ([], r).
Definition emit (e : event) : M unit := ([e], inr tt).
Definition print (line : pystr) : M unit := emit (Print line).

Definition bind {A B} (m : M A) (k : A -> M B) : M B :=
  match m with
  | (t, inl e) => (t, inl e)
  | (t, inr a) => let (t', r) := k a in (t ++ t', r)
  end.

Notation "x <- c1 ;; c2" := (bind c1 (fun x => c2))
  (at level 100, c1 at next level, right associativity).
Notation "c1 ;;; c2" := (bind c1 (fun _ => c2))
  (at level 100, right associativity).

(** [try: body except Exception as e: handler(e)] *)
Definition try_except {A} (body : M A) (handler : exn -> M A) : M A :=
  match body with
  | (t, inl e) => let (t', r) := handler e in (t ++ t', r)
  | (t, inr a) => (t, inr a)
  end.

(** [try: body except cls: handler] for one exception class. *)
Definition try_except_class {A} (cls : exc_class) (body : M A)
    (handler : exn -> M A) : M A :=
  match body with
  | (t, inl e) =>
      if exc_class_eqb (exn_class e) cls
      then let (t', r) := handler e in (t ++ t', r)
      else (t, inl e)
  | (t, inr a) => (t, inr a)
  end.

Definition trace {A} (m : M A) : list event := fst m.
Definition outcome {A} (m : M A) : exn + A := snd m.

(** Number of invocations of the secondary OCR engine in a trace. *)
Definition secondary_calls (t : list event) : nat :=
  length (List.filter event_is_secondary t).

Definition primary_calls (t : list event) : nat :=
  length (List.filter event_is_primary t).

(** Attribute lookup on a value that lacks the attribute. *)
Definition attribute_error (v : pyval) (attr : string) : exn :=
  Exn AttributeError
    (lit "'" ++ lit (type_name v) ++ lit "' object has no attribute '"
     ++ lit attr ++ lit "'").

Definition bytes_like_required (v : pyval) : exn :=
  Exn TypeError
    (lit "a bytes-like object is required, not '" ++ lit (type_name v)
     ++ lit "'").

(** ** The libraries behind the extractors *)

(** What the external libraries hand back, as far as the extractors look
    at it. *)

(** PyMuPDF: an opened document; [page_text n] is [doc[n].get_text()]. *)
Record pdf_document : Type := {
  page_count : nat;
  page_text : nat -> exn + pystr;
  pdf_metadata : option (gmap string pyval)
}.

(** python-docx: paragraph texts, and the cell texts of each table row. *)
Record word_document : Type := {
  paragraphs : list pystr;
  tables : list (list (list pystr))
}.

(** python-pptx: each slide is its shapes; a shape without a [text]
    attribute is [None]. *)
Record presentation : Type := {
  slides : list (list (option pystr))
}.

(** pandas: column labels (any value, not only strings) and data rows. *)
Record dataframe : Type := {
  df_columns : list pyval;
  df_rows : list (list pyval)
}.

(** Pillow *)
Record image : Type := {
  img_format : option pystr;
  img_size : nat * nat;
  img_mode : pystr;
  img_data : pybytes
}.

Record ndarray : Type := {
  nd_shape : list nat;
  nd_data : pybytes
}.

(** EasyOCR: one recognised region, [(box, text, confidence)]. *)
Record detection : Type := {
  det_box : list (Z * Z);
  det_text : pystr;
  det_conf : N
}.

Record reader : Type := {
  readtext : ndarray -> exn + list detection
}.

(** The interpreter tables and library entry points the module calls.
    Every library call either raises or returns. *)
Record Libs : Type := {
  (** [str.lower] on a string with a non-ASCII character *)
  unicode_lower : pystr -> pystr;
  (** [str(e)] of the [UnicodeDecodeError] for an ill-formed buffer *)
  utf8_error_str : pybytes -> pystr;
  fitz_open : pyval -> exn + pdf_document;
  docx_Document : pybytes -> exn + word_document;
  pd_read_csv : pybytes -> exn + dataframe;
  pd_read_excel : pybytes -> exn + dataframe;
  df_to_string : dataframe -> pystr;
  Image_open : pybytes -> exn + image;
  Image_convert : image -> string -> exn + image;
  image_to_string : image -> exn + pystr;
  np_array : image -> exn + ndarray;
  easyocr_Reader : list pystr -> exn + reader;
  Presentation : pybytes -> exn + presentation;
  json_loads : pystr -> exn + json;
  (** [json.dumps(data, indent=2, ensure_ascii=False)] *)
  json_dumps : json -> pystr
}.

(** [len(df)] and [df.head(n)] *)
Definition df_len (df : dataframe) : nat := length (df_rows df).

Definition df_head (n : nat) (df : dataframe) : dataframe :=
  {| df_columns := df_columns df; df_rows := firstn n (df_rows df) |}.

(** ** The extraction result *)

(** The dictionary every extractor returns. The keys ['type'] and
    ['error'] are present on some paths only. *)
Record ExtractionResult : Type := {
  success : bool;
  content : pystr;
  metadata : gmap string pyval;
  type : option pystr;
  error : option pystr
}.

(** [{'success': False, 'error': str(e), 'content': '', 'metadata': {}}] *)
Definition error_result (msg : pystr) : ExtractionResult :=
  {| success := false; content := []; metadata := ∅;
     type := None; error := Some msg |}.

Definition ok_result (c : pystr) (m : gmap string pyval) (t : string)
  : ExtractionResult :=
  {| success := true; content := c; metadata := m;
     type := Some (lit t); error := None |}.

Inductive codec : Type := UTF8 | Latin1.

Definition str_eqb (a b : pystr) : bool := bool_decide (a = b).

(** [s in [l1, l2, ...]] for literals. *)
Definition str_in (s : pystr) (l : list string) : bool :=
  existsb (fun x => str_eqb s (lit x)) l.

Definition repr_size (sz : nat * nat) : pystr :=
  lit "(" ++ str_of_nat (fst sz) ++ lit ", " ++ str_of_nat (snd sz) ++ lit ")".

Definition str_of_option (o : option pystr) : pystr :=
  match o with Some s => s | None => lit "None" end.

Definition pyval_of_option (o : option pystr) : pyval :=
  match o with Some s => PStr s | None => PNone end.

(** ["="*40] *)
Definition rule40 : pystr := repeat 61 40.

(** ** [class DocumentProcessor] *)

Record DocumentProcessor : Type := {
  ocr_reader : option reader
}.

Section Pipeline.

Variable L : Libs.

(** [s.lower()] *)
Definition lower (s : pystr) : pystr :=
  if forallb is_ascii s then map ascii_lower s else unicode_lower L s.

(** [v.decode(codec)] *)
Definition decode (v : pyval) (c : codec) : M pystr :=
  match v with
  | PBytes b =>
      match c with
      | UTF8 =>
          match utf8_decode b with
          | Some s => ret s
          | None => raise (Exn UnicodeDecodeError (utf8_error_str L b))
          end
      | Latin1 => ret (latin1_decode b)
      end
  | _ => raise (attribute_error v "decode")
  end.

(** [v.split('.')] *)
Definition split_dot (v : pyval) : M (list pystr) :=
  match v with
  | PStr s => ret (split 46 s)
  | PBytes _ => raise (bytes_like_required (PStr (lit ".")))
  | _ => raise (attribute_error v "split")
  end.

(** [io.BytesIO(v)] *)
Definition BytesIO (v : pyval) : M pybytes :=
  match v with
  | PBytes b => ret b
  | PNone => ret []
  | _ => raise (bytes_like_required v)
  end.

(** The strings of [sep.join(items)]: the first item that is not a [str]
    raises [TypeError]. *)
Fixpoint str_items (i : nat) (items : list pyval) : M (list pystr) :=
  match items with
  | [] => ret []
  | PStr s :: rest => r <- str_items (S i) rest ;; ret (s :: r)
  | v :: _ =>
      raise (Exn TypeError
               (lit "sequence item " ++ str_of_nat i
                ++ lit ": expected str instance, " ++ lit (type_name v)
                ++ lit " found"))
  end.

Definition join_values (sep : pystr) (items : list pyval) : M pystr :=
  strs <- str_items 0 items ;; ret (join sep strs).

Definition __init__ : M DocumentProcessor :=
  try_except
    (r <- lift (easyocr_Reader L [lit "en"]) ;;
     ret {| ocr_reader := Some r |})
    (fun _ => ret {| ocr_reader := None |}).

(** The page loop of [_process_pdf]. *)
Fixpoint read_pages (doc : pdf_document) (nums : list nat) (content : pystr)
  : M pystr :=
  match nums with
  | [] => ret content
  | page_num :: rest =>
      t <- lift (page_text doc page_num) ;;
      read_pages doc rest (content ++ t ++ [NL])
  end.

Definition _process_pdf (file_content : pyval) : M ExtractionResult :=
  try_except
    (doc <- lift (fitz_open L file_content) ;;
     content <- read_pages doc (seq 0 (page_count doc)) [] ;;
     title <- match pdf_metadata doc with
              | Some m => ret (default (PStr (lit "Unknown")) (m !! "title"))
              | None => raise (attribute_error PNone "get")
              end ;;
     ret (ok_result (strip content)
            {[ "pages" := PInt (Z.of_nat (page_count doc));
               "title" := title ]}
            "PDF Document"))
    (fun e => ret (error_result (exn_str e))).

Definition table_text (table : list (list pystr)) : pystr :=
  join [NL] (map (fun row => join (lit " | ") (map strip row)) table).

Definition _process_word (file_content : pyval) : M ExtractionResult :=
  try_except
    (b <- BytesIO file_content ;;
     doc <- lift (docx_Document L b) ;;
     let content := List.filter (fun p => truthy (strip p)) (paragraphs doc) in
     let tables_content := map table_text (tables doc) in
     let full_content := join [NL] content in
     let full_content :=
       match tables_content with
       | [] => full_content
       | _ :: _ =>
           full_content ++ [NL; NL] ++ lit "Tables:" ++ [NL]
           ++ join [NL; NL] tables_content
       end in
     ret (ok_result full_content
            {[ "paragraphs" := PInt (Z.of_nat (length content));
               "tables" := PInt (Z.of_nat (length tables_content)) ]}
            "Word Document"))
    (fun e => ret (error_result (exn_str e))).

Definition _process_text (file_content : pyval) : M ExtractionResult :=
  try_except_class UnicodeDecodeError
    (content <- decode file_content UTF8 ;;
     ret (ok_result content
            {[ "lines" := PInt (Z.of_nat (length (split NL content)));
               "characters" := PInt (Z.of_nat (length content)) ]}
            "Text File"))
    (fun _ =>
       try_except
         (content <- decode file_content Latin1 ;;
          ret (ok_result content
                 {[ "encoding" := PStr (lit "latin-1") ]}
                 "Text File"))
         (fun e => ret (error_result (exn_str e)))).

(** The body shared by [_process_csv] and [_process_excel], which differ
    in the reader, the heading and the type label. *)
Definition table_summary (heading : string) (df : dataframe) : M pystr :=
  names <- join_values (lit ", ") (df_columns df) ;;
  ret (lit heading ++ [NL]
       ++ lit "Rows: " ++ str_of_nat (df_len df)
       ++ lit ", Columns: " ++ str_of_nat (length (df_columns df)) ++ [NL]
       ++ lit "Columns: " ++ names ++ [NL; NL]
       ++ lit "First 10 rows:" ++ [NL]
       ++ df_to_string L (df_head 10 df)).

Definition table_metadata (df : dataframe) : gmap string pyval :=
  {[ "rows" := PInt (Z.of_nat (df_len df));
     "columns" := PInt (Z.of_nat (length (df_columns df)));
     "column_names" := PList (df_columns df) ]}.

Definition _process_csv (file_content : pyval) : M ExtractionResult :=
  try_except
    (b <- BytesIO file_content ;;
     df <- lift (pd_read_csv L b) ;;
     content <- table_summary "CSV Data Analysis:" df ;;
     ret (ok_result content (table_metadata df) "CSV File"))
    (fun e => ret (error_result (exn_str e))).

Definition _process_excel (file_content : pyval) : M ExtractionResult :=
  try_except
    (b <- BytesIO file_content ;;
     df <- lift (pd_read_excel L b) ;;
     content <- table_summary "Excel Data Analysis:" df ;;
     ret (ok_result content (table_metadata df) "Excel File"))
    (fun e => ret (error_result (exn_str e))).

(** The lines printed when an OCR engine produced text. *)
Definition print_extracted (engine : string) (text_content : pystr) : M unit :=
  print (lit "[SUCCESS] " ++ lit engine ++ lit " extracted text:") ;;;
  print rule40 ;;;
  print text_content ;;;
  print rule40.

(** Method 1 of [_process_image]: pytesseract on the grayscale image. An
    exception of the engine is printed and leaves [text_content] as it
    was. *)
Definition primary_pass (gray_image : image) (text_content : pystr)
  : M pystr :=
  try_except
    (print (lit "[INFO] Running pytesseract...") ;;;
     emit PrimaryOCR ;;;
     text_content <- lift (image_to_string L gray_image) ;;
     (if truthy (strip text_content)
      then print_extracted "Tesseract" text_content
      else print (lit "[WARNING] Tesseract returned no text.")) ;;;
     ret text_content)
    (fun e =>
       print (lit "[ERROR] Tesseract OCR failed: " ++ exn_str e) ;;;
       ret text_content).

(** Method 2 of [_process_image]: EasyOCR on the original image, entered
    only when there is no text yet and a reader exists. *)
Definition secondary_pass (self : DocumentProcessor) (img : image)
    (text_content : pystr) : M pystr :=
  match negb (truthy (strip text_content)), ocr_reader self with
  | true, Some rd =>
      try_except
        (print (lit "[INFO] Falling back to EasyOCR...") ;;;
         img_array <- lift (np_array L img) ;;
         emit SecondaryOCR ;;;
         results <- lift (readtext rd img_array) ;;
         let text_content := join (lit " ") (map det_text results) in
         (if truthy (strip text_content)
          then print_extracted "EasyOCR" text_content
          else print (lit "[WARNING] EasyOCR also returned no text.")) ;;;
         ret text_content)
        (fun e =>
           print (lit "[ERROR] EasyOCR failed: " ++ exn_str e) ;;;
           ret text_content)
  | _, _ => ret text_content
  end.

Definition image_metadata (img : image) : gmap string pyval :=
  {[ "size" := PTuple [PInt (Z.of_nat (fst (img_size img)));
                       PInt (Z.of_nat (snd (img_size img)))];
     "mode" := PStr (img_mode img);
     "format" := pyval_of_option (img_format img) ]}.

Definition _process_image (self : DocumentProcessor) (file_content : pyval)
  : M ExtractionResult :=
  try_except
    (print ([NL] ++ lit "[INFO] Starting image OCR processing...") ;;;
     b <- BytesIO file_content ;;
     img <- lift (Image_open L b) ;;
     print (lit "[INFO] Image loaded: Format=" ++ str_of_option (img_format img)
            ++ lit ", Size=" ++ repr_size (img_size img)
            ++ lit ", Mode=" ++ img_mode img) ;;;
     gray_image <- lift (Image_convert L img "L") ;;
     print (lit "[INFO] Converted image to grayscale for Tesseract") ;;;
     text_content <- primary_pass gray_image [] ;;
     text_content <- secondary_pass self img text_content ;;
     let text_content :=
       if negb (truthy (strip text_content))
       then lit "No text detected in image"
       else text_content in
     ret (ok_result (lit "Image OCR Results:" ++ [NL] ++ text_content)
            (image_metadata img) "Image File"))
    (fun e =>
       print (lit "[FATAL] Error in _process_image: " ++ exn_str e) ;;;
       ret (error_result (exn_str e))).

Definition shape_line (shape : option pystr) : pystr :=
  match shape with
  | Some text =>
      if truthy (strip text) then lit "- " ++ strip text ++ [NL] else []
  | None => []
  end.

Definition slide_text (i : nat) (shapes : list (option pystr)) : pystr :=
  lit "Slide " ++ str_of_nat (S i) ++ lit ":" ++ [NL]
  ++ concat (map shape_line shapes).

Definition _process_powerpoint (file_content : pyval) : M ExtractionResult :=
  try_except
    (b <- BytesIO file_content ;;
     prs <- lift (Presentation L b) ;;
     let content := imap slide_text (slides prs) in
     ret (ok_result (join [NL] content)
            {[ "slides" := PInt (Z.of_nat (length (slides prs))) ]}
            "PowerPoint Presentation"))
    (fun e => ret (error_result (exn_str e))).

Definition _process_json (file_content : pyval) : M ExtractionResult :=
  try_except
    (text <- decode file_content UTF8 ;;
     data <- lift (json_loads L text) ;;
     let content := lit "JSON File Analysis:" ++ [NL] ++ json_dumps L data in
     ret (ok_result content
            {[ "type" := PStr (lit (json_type_name data));
               "keys" := json_keys data ]}
            "JSON File"))
    (fun e => ret (error_result (exn_str e))).

Definition _process_generic (file_content : pyval) : M ExtractionResult :=
  try_except
    (content <- decode file_content UTF8 ;;
     ret (ok_result content
            {[ "size" := PInt (Z.of_nat (length content)) ]}
            "Generic Text"))
    (fun _ => ret (error_result (lit "Cannot process this file type"))).

(** [filename.split('.')[-1].lower()] *)
Definition file_extension (filename : pyval) : M pystr :=
  parts <- split_dot filename ;; ret (lower (last_item parts)).

(** The [if]/[elif] chain of [process_file]. *)
Definition dispatch (self : DocumentProcessor) (file_ext : pystr)
    (file_content : pyval) : M ExtractionResult :=
  if str_eqb file_ext (lit "pdf") then _process_pdf file_content
  else if str_in file_ext ["docx"; "doc"] then _process_word file_content
  else if str_eqb file_ext (lit "txt") then _process_text file_content
  else if str_eqb file_ext (lit "csv") then _process_csv file_content
  else if str_in file_ext ["xlsx"; "xls"] then _process_excel file_content
  else if str_in file_ext ["png"; "jpg"; "jpeg"; "gif"; "bmp"; "tiff"; "webp"]
       then _process_image self file_content
  else if str_eqb file_ext (lit "pptx") then _process_powerpoint file_content
  else if str_eqb file_ext (lit "json") then _process_json file_content
  else _process_generic file_content.

(** The [try] block of [process_file]. *)
Definition process_file_try (self : DocumentProcessor)
    (file_content filename : pyval) : M ExtractionResult :=
  file_ext <- file_extension filename ;;
  dispatch self file_ext file_content.

(** Main file processing method. *)
Definition process_file (self : DocumentProcessor)
    (file_content filename file_type : pyval) : M ExtractionResult :=
  try_except
    (process_file_try self file_content filename)
    (fun e => ret (error_result (exn_str e))).

End Pipeline.

(** ** Stand-ins for the libraries

    A small, computable set of libraries for running the pipeline on
    concrete inputs: an "image" is any non-empty buffer, whose bytes are
    also the text the primary engine reads; the secondary engine reads one
    region holding the same text; a table has one row per byte. *)

Definition stub_error (msg : string) : exn := Exn OtherException (lit msg).

Definition stub_reader : reader :=
  {| readtext := fun arr =>
       inr [ {| det_box := [(0, 0); (1, 1)]%Z;
                det_text := latin1_decode (nd_data arr);
                det_conf := 1 |} ] |}.

Definition stub_libs : Libs :=
  {| unicode_lower := fun s => s;
     utf8_error_str := fun _ => lit "'utf-8' codec can't decode bytes";
     fitz_open := fun _ => inl (stub_error "Failed to open stream");
     docx_Document := fun _ => inl (stub_error "File is not a zip file");
     pd_read_csv := fun b =>
       match b with
       | [] => inl (stub_error "No columns to parse from file")
       | _ => inr {| df_columns := [PStr (lit "value")];
                     df_rows := map (fun x => [PInt (Z.of_N (Byte.to_N x))]) b |}
       end;
     pd_read_excel := fun b =>
       match b with
       | [] => inl (stub_error "Excel file format cannot be determined")
       | _ => inr {| df_columns := [PInt 2024];
                     df_rows := map (fun x => [PInt (Z.of_N (Byte.to_N x))]) b |}
       end;
     df_to_string := fun df => str_of_nat (length (df_rows df));
     Image_open := fun b =>
       match b with
       | [] => inl (stub_error "cannot identify image file")
       | _ => inr {| img_format := Some (lit "PNG"); img_size := (2, 1)%nat;
                     img_mode := lit "RGB"; img_data := b |}
       end;
     Image_convert := fun img mode =>
       inr {| img_format := None; img_size := img_size img;
              img_mode := lit mode; img_data := img_data img |};
     image_to_string := fun img => inr (latin1_decode (img_data img));
     np_array := fun img =>
       inr {| nd_shape := [1; 2; 3]%nat; nd_data := img_data img |};
     easyocr_Reader := fun _ => inr stub_reader;
     Presentation := fun _ => inl (stub_error "Package not found");
     json_loads := fun s =>
       match s with
       | [] => inl (stub_error "Expecting value: line 1 column 1 (char 0)")
       | [123; 125] => inr (JDict [])
       | _ => inr (JStr s)
       end;
     json_dumps := fun _ => lit "..." |}.

Definition stub_processor : DocumentProcessor :=
  {| ocr_reader := Some stub_reader |}.

(** ** Vocabulary of the specification *)

(** The two sides of the result invariant as the specification words
    them: content populated with the type set, and error populated. *)
Definition content_and_type_set (r : ExtractionResult) : Prop :=
  content r <> [] /\ is_Some (type r).

Definition error_populated (r : ExtractionResult) : Prop :=
  is_Some (error r).

Definition exactly_one (P Q : Prop) : Prop := (P /\ ~ Q) \/ (~ P /\ Q).


(** A string without text: empty or whitespace only. *)
Definition blank (s : pystr) : Prop := truthy (strip s) = false.

(** The text of the tabular summary for a table whose column labels are
    the strings [names]. *)
Definition summary_text (L : Libs) (heading : string) (df : dataframe)
    (names : list pystr) : pystr :=
  lit heading ++ [NL]
  ++ lit "Rows: " ++ str_of_nat (length (df_rows df))
  ++ lit ", Columns: " ++ str_of_nat (length names) ++ [NL]
  ++ lit "Columns: " ++ join (lit ", ") names ++ [NL; NL]
  ++ lit "First 10 rows:" ++ [NL]
  ++ df_to_string L (df_head 10 df).

(** The text the primary pass leaves: what the engine returned, or what
    there was before when the engine raised. *)
Definition primary_text (L : Libs) (gray_image : image) (before : pystr)
  : pystr :=
  match image_to_string L gray_image with
  | inr t => t
  | inl _ => before
  end.

(** The text the secondary pass leaves, and whether it reaches the
    engine: it is entered only on blank text with a reader at hand, and
    an exception anywhere in it keeps the text as it was. *)
Definition secondary_text (L : Libs) (self : DocumentProcessor)
    (img : image) (before : pystr) : pystr :=
  match negb (truthy (strip before)), ocr_reader self with
  | true, Some rd =>
      match np_array L img with
      | inr arr =>
          match readtext rd arr with
          | inr results => join (lit " ") (map det_text results)
          | inl _ => before
          end
      | inl _ => before
      end
  | _, _ => before
  end.

Definition secondary_invoked (L : Libs) (self : DocumentProcessor)
    (img : image) (before : pystr) : bool :=
  match negb (truthy (strip before)), ocr_reader self with
  | true, Some rd =>
      match np_array L img with inr _ => true | inl _ => false end
  | _, _ => false
  end.

Definition no_text_sentinel : pystr := lit "No text detected in image".

Definition ocr_prefix : pystr := lit "Image OCR Results:" ++ [NL].

(** What the specification asks of a successful tabular result [r] for
    the parsed table [df]: the content is the summary whose preview is the
    table cut to its first 10 rows, that preview has at most 10 rows (so
    it is not the full table once the table has more), and the metadata
    reports the full row count. *)
Definition tabular_result (L : Libs) (heading : string) (df : dataframe)
    (r : ExtractionResult) : Prop :=
  exists names : list pystr,
    df_columns df = map PStr names /\
    content r = summary_text L heading df names /\
    df_rows (df_head 10 df) = firstn 10 (df_rows df) /\
    (length (df_rows (df_head 10 df)) <= 10)%nat /\
    ((10 < length (df_rows df))%nat -> df_head 10 df <> df) /\
    metadata r !! "rows" = Some (PInt (Z.of_nat (length (df_rows df)))).

(** The form [_process_csv] and [_process_excel] have in common, with the
    reader, the heading and the type label left open. *)
Definition tabular_extractor (L : Libs) (read : pybytes -> exn + dataframe)
    (heading label : string) (file_content : pyval) : M ExtractionResult :=
  try_except
    (b <- BytesIO file_content ;;
     df <- lift (read b) ;;
     content <- table_summary L heading df ;;
     ret (ok_result content (table_metadata df) label))
    (fun e => ret (error_result (exn_str e))).

(** A table of [n] rows as the stand-in reader sees it: [n] bytes. *)
Definition sample_table_bytes (n : nat) : pybytes := repeat x37 n.

(** A result every field of which is fixed by one of the two dictionary
    shapes of the source. *)
Inductive result_shape : ExtractionResult -> Prop :=
| shape_ok c m t : result_shape (ok_result c m t)
| shape_error msg : result_shape (error_result msg).

(** [post Q m]: if [m] returns, its value satisfies [Q]. *)
Definition post {A} (Q : A -> Prop) (m : M A) : Prop :=
  match outcome m with inr a => Q a | inl _ => True end.

(** [returns m]: [m] does not raise. *)
Definition returns {A} (m : M A) : Prop := exists a, outcome m = inr a.

(** ** Vocabulary for the remaining extractors *)

(** Number of occurrences of a character in a string. *)
Definition count_char (c : N) (s : pystr) : nat :=
  length (List.filter (N.eqb c) s).

(** A string that neither begins nor ends with whitespace. *)
Definition trimmed (s : pystr) : Prop :=
  (forall c rest, s = c :: rest -> is_space c = false) /\
  (forall c init, s = init ++ [c] -> is_space c = false).

(** The message of the generic extractor's failure. *)
Definition cannot_process : pystr := lit "Cannot process this file type".

(** The extensions handled by the image extractor. *)
Definition image_extensions : list string :=
  ["png"; "jpg"; "jpeg"; "gif"; "bmp"; "tiff"; "webp"].

(** A computation that prints nothing and calls no OCR engine. *)
Definition silent {A} (m : M A) : Prop := trace m = [].

(** ** Stand-ins for the document libraries

    [office_libs] is [stub_libs] with readers for documents: a "PDF" has
    one page per byte, the page text being that byte as a character, and
    a zero byte is a page that cannot be read; a "Word document" has the
    lines of the buffer as paragraphs and no table; a "slide deck" has one
    slide per byte, holding one shape with that byte as text and one shape
    without text. *)

Definition sample_pdf (b : pybytes) : pdf_document :=
  {| page_count := length b;
     page_text := fun i =>
       match b !! i with
       | Some x =>
           if Byte.eqb x x00 then inl (stub_error "page is damaged")
           else inr [Byte.to_N x]
       | None => inl (stub_error "page not in document")
       end;
     pdf_metadata := Some {[ "author" := PStr (lit "unknown author") ]} |}.

Definition sample_docx (b : pybytes) : word_document :=
  {| paragraphs := split NL (latin1_decode b); tables := [] |}.

Definition sample_pptx (b : pybytes) : presentation :=
  {| slides := map (fun x => [Some [Byte.to_N x]; None]) b |}.

Definition office_libs : Libs :=
  {| unicode_lower := unicode_lower stub_libs;
     utf8_error_str := utf8_error_str stub_libs;
     fitz_open := fun v =>
       match v with
       | PBytes b => inr (sample_pdf b)
       | _ => inl (stub_error "bad stream")
       end;
     docx_Document := fun b => inr (sample_docx b);
     pd_read_csv := pd_read_csv stub_libs;
     pd_read_excel := pd_read_excel stub_libs;
     df_to_string := df_to_string stub_libs;
     Image_open := Image_open stub_libs;
     Image_convert := Image_convert stub_libs;
     image_to_string := image_to_string stub_libs;
     np_array := np_array stub_libs;
     easyocr_Reader := fun _ => inl (stub_error "model download failed");
     Presentation := fun b => inr (sample_pptx b);
     json_loads := json_loads stub_libs;
     json_dumps := json_dumps stub_libs |}.

(** The text of the pages [nums] of a document as the page loop
    accumulates it: each page followed by a newline. *)
Definition pages_text (texts : nat -> pystr) (nums : list nat) : pystr :=
  concat (map (fun i => texts i ++ [NL]) nums).

(** The texts of the shapes of a slide that make a bullet: shapes with a
    [text] attribute whose text is not blank, in shape order. *)
Definition bullet_texts (shapes : list (option pystr)) : list pystr :=
  List.filter (fun t => truthy (strip t)) (omap id shapes).

(** A scanned invoice: the primary engine reads nothing from it, and the
    secondary engine reads two regions. *)
Definition scan_reader : reader :=
  {| readtext := fun _ =>
       inr [ {| det_box := [(0, 0); (40, 10)]%Z; det_text := lit "Invoice";
                det_conf := 1 |};
             {| det_box := [(45, 0); (80, 10)]%Z; det_text := lit "Total";
                det_conf := 1 |} ] |}.

Definition scan_libs : Libs :=
  {| unicode_lower := unicode_lower stub_libs;
     utf8_error_str := utf8_error_str stub_libs;
     fitz_open := fitz_open stub_libs;
     docx_Document := docx_Document stub_libs;
     pd_read_csv := pd_read_csv stub_libs;
     pd_read_excel := pd_read_excel stub_libs;
     df_to_string := df_to_string stub_libs;
     Image_open := Image_open stub_libs;
     Image_convert := Image_convert stub_libs;
     image_to_string := fun _ => inr [];
     np_array := np_array stub_libs;
     easyocr_Reader := fun _ => inr scan_reader;
     Presentation := Presentation stub_libs;
     json_loads := json_loads stub_libs;
     json_dumps := json_dumps stub_libs |}.

Definition scan_processor : DocumentProcessor :=
  {| ocr_reader := Some scan_reader |}.

(** [str(e)] of the [TypeError] that [', '.join] raises on a label that is
    not a string, at position [i]. *)
Definition join_type_error (i : nat) (v : pyval) : pystr :=
  lit "sequence item " ++ str_of_nat i ++ lit ": expected str instance, "
  ++ lit (type_name v) ++ lit " found".

Definition is_str (v : pyval) : bool :=
  match v with PStr _ => true | _ => false end.

(** * The AI engine ([ai_engine.py]) and the email assistant *)

(** An entry of the chat history kept by the application: the dictionary
    [{'role', 'content', 'timestamp'}]. *)
Record chat_entry : Type := {
  entry_role : pystr;
  entry_content : pystr;
  entry_timestamp : nat
}.

(** A message of the API call: the dictionary [{"role", "content"}]. *)
Record message : Type := {
  msg_role : pystr;
  msg_content : pystr
}.

(** The f-string of [_build_messages]. *)
Definition system_prompt (context : pystr) : pystr :=
  lit "You are an AI Document Assistant that helps users understand documents, write emails, and answer questions."
  ++ [NL; NL]
  ++ lit "Current Context from uploaded files:" ++ [NL]
  ++ context ++ [NL; NL]
  ++ lit "You can help with:" ++ [NL]
  ++ lit "1. " ++ [128214] ++ lit " Explaining document content" ++ [NL]
  ++ lit "2. " ++ [128221] ++ lit " Writing professional emails" ++ [NL]
  ++ lit "3. " ++ [128231] ++ lit " Replying to emails with context" ++ [NL]
  ++ lit "4. " ++ [128202] ++ lit " Analyzing data and documents  " ++ [NL]
  ++ lit "5. " ++ [10067] ++ lit " Answering questions about uploaded files"
  ++ [NL; NL]
  ++ lit "Be helpful, professional, and use the document context when relevant.".

(** [chat_history[-10:] if len(chat_history) > 10 else chat_history] *)
Definition recent_history (chat_history : list chat_entry) : list chat_entry :=
  if (10 <? length chat_history)%nat
  then drop (length chat_history - 10) chat_history
  else chat_history.

(** Build message array for API call. *)
Definition _build_messages (user_message context : pystr)
    (chat_history : list chat_entry) : list message :=
  let messages :=
    [ {| msg_role := lit "system"; msg_content := system_prompt context |} ] in
  fold_left
    (fun messages msg =>
       if str_in (entry_role msg) ["user"; "assistant"]
       then messages ++ [ {| msg_role := entry_role msg;
                             msg_content := entry_content msg |} ]
       else messages)
    (recent_history chat_history) messages.

(** [Config.AVAILABLE_MODELS], [Config.MAX_TOKENS], [Config.TEMPERATURE] *)
Definition AVAILABLE_MODELS : list (string * string) :=
  [ ("Claude 3 Haiku", "anthropic/claude-3-haiku");
    ("Claude 3 Sonnet", "anthropic/claude-3-sonnet");
    ("GPT-4 Turbo", "openai/gpt-4-turbo-preview");
    ("GPT-3.5 Turbo", "openai/gpt-3.5-turbo");
    ("Llama 2 70B", "meta-llama/llama-2-70b-chat");
    ("Gemini Pro", "google/gemini-pro") ].

Definition MAX_TOKENS : Z := 2000.

(** [0.7], as the fraction 7/10 *)
Definition TEMPERATURE : Z * Z := (7, 10)%Z.

(** The attributes of an [AIEngine]; the API key is [None] when the
    environment does not define it. *)
Record AIEngine : Type := {
  api_key : option pystr;
  base_url : pystr;
  app_name : pystr;
  model : pystr
}.

(** The POST request of [_call_openrouter_api] and what [httpx] hands
    back. *)
Record request : Type := {
  req_url : pystr;
  req_headers : list (string * pystr);
  req_model : pystr;
  req_messages : list message;
  req_max_tokens : Z;
  req_temperature : Z * Z;
  req_stream : bool
}.

Record response : Type := {
  status_code : Z;
  resp_text : pystr;
  json_body : exn + json
}.

(** The network and the interpreter's subscript errors: [http_post] either
    raises or returns a response; [subscript_error d k] is the exception
    of [d[k]] when [d] has no item [k]. *)
Record Net : Type := {
  http_post : request -> exn + response;
  subscript_error : json -> pyval -> exn
}.

(** What the application shows or prints. *)
Inductive ui_event : Type :=
| UISpinner (text : pystr)
| UISuccess (text : pystr)
| UIError (text : pystr)
| UITerminal (e : event).

(** [str(z)] for an integer. *)
Definition str_of_Z (z : Z) : pystr :=
  if (z <? 0)%Z then lit "-" ++ str_of_nat (Z.to_nat (- z))
  else str_of_nat (Z.to_nat z).

(** [d[k]] for a string key *)
Definition getitem_key (net : Net) (d : json) (k : string) : exn + json :=
  match d with
  | JDict kvs =>
      match List.find (fun kv => str_eqb kv.1 (lit k)) kvs with
      | Some kv => inr kv.2
      | None => inl (subscript_error net d (PStr (lit k)))
      end
  | _ => inl (subscript_error net d (PStr (lit k)))
  end.

(** [d[0]] *)
Definition getitem_0 (net : Net) (d : json) : exn + json :=
  match d with
  | JList (x :: _) => inr x
  | JStr (c :: _) => inr (JStr [c])
  | _ => inl (subscript_error net d (PInt 0))
  end.

(** [d.strip()] *)
Definition json_strip (d : json) : exn + pystr :=
  match d with
  | JStr s => inr (strip s)
  | _ => inl (Exn AttributeError
                (lit "'" ++ lit (json_type_name d)
                 ++ lit "' object has no attribute 'strip'"))
  end.

Definition and_then {A B} (r : exn + A) (k : A -> exn + B) : exn + B :=
  match r with inl e => inl e | inr a => k a end.

(** [result['choices'][0]['message']['content'].strip()] *)
Definition reply_of (net : Net) (result : json) : exn + pystr :=
  and_then (getitem_key net result "choices") (fun choices =>
  and_then (getitem_0 net choices) (fun choice =>
  and_then (getitem_key net choice "message") (fun msg =>
  and_then (getitem_key net msg "content") json_strip))).

Definition api_unreachable : pystr :=
  lit "I'm having trouble connecting to the AI service. Please try again.".

(** Make API call to OpenRouter. *)
Definition _call_openrouter_api (net : Net) (self : AIEngine)
    (messages : list message) : list ui_event * (exn + pystr) :=
  let headers :=
    [ ("Authorization", lit "Bearer " ++ str_of_option (api_key self));
      ("HTTP-Referer", lit "http://localhost:8501");
      ("X-Title", app_name self);
      ("Content-Type", lit "application/json") ] in
  match http_post net
          {| req_url := base_url self ++ lit "/chat/completions";
             req_headers := headers;
             req_model := model self;
             req_messages := messages;
             req_max_tokens := MAX_TOKENS;
             req_temperature := TEMPERATURE;
             req_stream := false |} with
  | inl e => ([], inl e)
  | inr response =>
      if (status_code response =? 200)%Z
      then ([], and_then (json_body response) (reply_of net))
      else
        let error_msg :=
          lit "API Error " ++ str_of_Z (status_code response) ++ lit ": "
          ++ resp_text response in
        ([UIError error_msg], inr api_unreachable)
  end.

(** Generate AI response using OpenRouter. *)
Definition generate_response (net : Net) (self : AIEngine)
    (user_message context : pystr) (chat_history : list chat_entry)
  : list ui_event * pystr :=
  let messages := _build_messages user_message context chat_history in
  match _call_openrouter_api net self messages with
  | (ui, inr response) => (ui, response)
  | (ui, inl e) =>
      (ui, lit "I apologize, but I encountered an error: " ++ exn_str e
           ++ lit ". Please try again.")
  end.

(** Change the AI model: the new engine and the returned flag. *)
Definition change_model (self : AIEngine) (model_name : pystr)
  : AIEngine * bool :=
  if str_in model_name (map snd AVAILABLE_MODELS)
  then ({| api_key := api_key self; base_url := base_url self;
           app_name := app_name self; model := model_name |}, true)
  else (self, false).

(** [EmailAssistant.write_email] and [EmailAssistant.reply_to_email], on
    the assistant's engine. *)
Definition write_email (net : Net) (ai_engine : AIEngine)
    (context requirements : pystr) : list ui_event * (exn + pystr) :=
  let prompt :=
    [NL] ++ lit "Please help me write a professional email based on the following:"
    ++ [NL; NL]
    ++ lit "Requirements: " ++ requirements ++ [NL; NL]
    ++ lit "Document Context: " ++ context ++ [NL; NL]
    ++ lit "Please provide:" ++ [NL]
    ++ lit "1. Subject line" ++ [NL]
    ++ lit "2. Professional email body" ++ [NL]
    ++ lit "3. Appropriate greeting and closing" ++ [NL; NL]
    ++ lit "Make it clear, professional, and well-structured." ++ [NL] in
  _call_openrouter_api net ai_engine
    [ {| msg_role := lit "system";
         msg_content := lit "You are a professional email writing assistant." |};
      {| msg_role := lit "user"; msg_content := prompt |} ].

Definition reply_to_email (net : Net) (ai_engine : AIEngine)
    (original_email context instructions : pystr)
  : list ui_event * (exn + pystr) :=
  let prompt :=
    [NL] ++ lit "Please help me write a professional reply to this email:"
    ++ [NL; NL]
    ++ lit "Original Email:" ++ [NL]
    ++ original_email ++ [NL; NL]
    ++ lit "Context from my documents: " ++ context ++ [NL; NL]
    ++ lit "Additional instructions: " ++ instructions ++ [NL; NL]
    ++ lit "Please write an appropriate professional reply." ++ [NL] in
  _call_openrouter_api net ai_engine
    [ {| msg_role := lit "system";
         msg_content := lit "You are a professional email reply assistant." |};
      {| msg_role := lit "user"; msg_content := prompt |} ].

(** A chat entry as a message, without its timestamp. *)
Definition message_of_entry (e : chat_entry) : message :=
  {| msg_role := entry_role e; msg_content := entry_content e |}.

Definition is_chat_role (e : chat_entry) : bool :=
  str_in (entry_role e) ["user"; "assistant"].

(** Stand-ins for the network: a server that answers any request with the
    number of messages it received, padded with whitespace, and an
    unreachable one. *)
Definition echo_net : Net :=
  {| http_post := fun rq =>
       inr {| status_code := 200;
              resp_text := [];
              json_body :=
                inr (JDict
                       [ (lit "choices",
                          JList
                            [ JDict
                                [ (lit "message",
                                   JDict
                                     [ (lit "role", JStr (lit "assistant"));
                                       (lit "content",
                                        JStr ([32] ++ str_of_nat
                                                        (length (req_messages rq))
                                              ++ [NL])) ]) ] ]) ]) |};
     subscript_error := fun _ _ => Exn OtherException (lit "no such item") |}.

Definition down_net : Net :=
  {| http_post := fun _ =>
       inl (Exn OtherException (lit "All connection attempts failed"));
     subscript_error := fun _ _ => Exn OtherException (lit "no such item") |}.

Definition sample_engine : AIEngine :=
  {| api_key := None; base_url := lit "https://openrouter.ai/api/v1";
     app_name := lit "AI Document Chatbot";
     model := lit "anthropic/claude-3-haiku" |}.

(** The request [_call_openrouter_api] sends for an engine and a list of
    messages. *)
Definition request_for (self : AIEngine) (messages : list message) : request :=
  {| req_url := base_url self ++ lit "/chat/completions";
     req_headers :=
       [ ("Authorization", lit "Bearer " ++ str_of_option (api_key self));
         ("HTTP-Referer", lit "http://localhost:8501");
         ("X-Title", app_name self);
         ("Content-Type", lit "application/json") ];
     req_model := model self;
     req_messages := messages;
     req_max_tokens := MAX_TOKENS;
     req_temperature := TEMPERATURE;
     req_stream := false |}.

(** The reply of [generate_response] after an exception. *)
Definition apology (e : exn) : pystr :=
  lit "I apologize, but I encountered an error: " ++ exn_str e
  ++ lit ". Please try again.".

Definition system_message (context : pystr) : message :=
  {| msg_role := lit "system"; msg_content := system_prompt context |}.

(** * The application ([app.py]): uploads and context *)

(** The dictionary stored for a processed file. *)
Record file_info : Type := {
  fi_name : pystr;
  fi_type : pystr;
  fi_size : nat;
  fi_content : pystr;
  fi_metadata : gmap string pyval;
  fi_processed_at : pystr
}.

(** The part of [st.session_state] the upload and context functions
    work on. *)
Record session_state : Type := {
  chat_history : list chat_entry;
  uploaded_files : list file_info;
  file_contents : gmap (list N) pystr;
  current_context : pystr
}.

(** A file handed over by the upload widget: [read()] either raises or
    returns the bytes. *)
Record UploadedFile : Type := {
  up_name : pystr;
  up_type : pystr;
  up_read : exn + pybytes
}.

(** What the application runs on: the libraries, the processor built at
    start-up, and the clock, [app_clock t] being
    [datetime.now().strftime("%Y-%m-%d %H:%M")] at the [t]-th reading. *)
Record AppEnv : Type := {
  app_libs : Libs;
  app_processor : DocumentProcessor;
  app_clock : nat -> pystr
}.

(** The session together with what was shown or printed so far and the
    number of clock readings. *)
Record world : Type := {
  session : session_state;
  shown : list ui_event;
  ticks : nat
}.

Definition show (ev : list ui_event) (w : world) : world :=
  {| session := session w; shown := shown w ++ ev; ticks := ticks w |}.

(** [f"File: {file_info['name']}\nContent: {file_info['content'][:1000]}"] *)
Definition context_part (f : file_info) : pystr :=
  lit "File: " ++ fi_name f ++ [NL] ++ lit "Content: "
  ++ take 1000 (fi_content f).

(** Update current context based on uploaded files. *)
Definition update_context (st : session_state) : session_state :=
  match uploaded_files st with
  | [] => st
  | _ :: _ =>
      {| chat_history := chat_history st;
         uploaded_files := uploaded_files st;
         file_contents := file_contents st;
         current_context :=
           join [NL; NL] (map context_part (uploaded_files st)) |}
  end.

Definition upload_error (u : UploadedFile) (msg : pystr) : ui_event :=
  UIError ([10060] ++ lit " Error processing " ++ up_name u ++ lit ": " ++ msg).

(** The body of the loop of [process_uploaded_files] for one file. The
    [try] block changes the session only in its last steps, none of which
    raises, so an exception leaves the session as it was. *)
Definition process_upload (env : AppEnv) (w : world) (uploaded_file : UploadedFile)
  : world :=
  let st := session w in
  if bool_decide (up_name uploaded_file ∈ map fi_name (uploaded_files st))
  then w
  else
    let w := show [UISpinner (lit "Processing " ++ up_name uploaded_file
                              ++ lit "...")] w in
    match up_read uploaded_file with
    | inl e => show [upload_error uploaded_file (exn_str e)] w
    | inr file_content =>
        let run := process_file (app_libs env) (app_processor env)
                     (PBytes file_content) (PStr (up_name uploaded_file))
                     (PStr (up_type uploaded_file)) in
        let w := show (map UITerminal (trace run)) w in
        match outcome run with
        | inl e => show [upload_error uploaded_file (exn_str e)] w
        | inr result =>
            if success result then
              let info :=
                {| fi_name := up_name uploaded_file;
                   fi_type := up_type uploaded_file;
                   fi_size := length file_content;
                   fi_content := content result;
                   fi_metadata := metadata result;
                   fi_processed_at := app_clock env (ticks w) |} in
              let st' :=
                update_context
                  {| chat_history := chat_history st;
                     uploaded_files := uploaded_files st ++ [info];
                     file_contents :=
                       <[up_name uploaded_file := content result]>
                         (file_contents st);
                     current_context := current_context st |} in
              {| session := st';
                 shown := shown w
                          ++ [UISuccess ([9989] ++ lit " Successfully processed "
                                         ++ up_name uploaded_file)];
                 ticks := S (ticks w) |}
            else
              match error result with
              | Some msg => show [upload_error uploaded_file msg] w
              | None => show [upload_error uploaded_file (lit "'error'")] w
              end
        end
    end.

(** Process and store uploaded files. *)
Definition process_uploaded_files (env : AppEnv)
    (uploaded_files : list UploadedFile) (w : world) : world :=
  fold_left (process_upload env) uploaded_files w.

(** The removal of the file at position [i] in [display_current_files]:
    [uploaded_files.pop(i)], [del file_contents[name]], [update_context()].
    The second component is the exception of [pop] or [del], if any; the
    list has already lost the file when [del] raises. *)
Definition remove_file (i : nat) (st : session_state)
  : session_state * option exn :=
  match uploaded_files st !! i with
  | None => (st, Some (Exn OtherException (lit "pop index out of range")))
  | Some info =>
      let popped :=
        {| chat_history := chat_history st;
           uploaded_files := delete i (uploaded_files st);
           file_contents := file_contents st;
           current_context := current_context st |} in
      match file_contents st !! fi_name info with
      | None =>
          (popped,
           Some (Exn OtherException (lit "'" ++ fi_name info ++ lit "'")))
      | Some _ =>
          (update_context
             {| chat_history := chat_history st;
                uploaded_files := delete i (uploaded_files st);
                file_contents := delete (fi_name info) (file_contents st);
                current_context := current_context st |},
           None)
      end
  end.

(** The content preview of [display_current_files]:
    [content[:300] + "..." if len(content) > 300 else content]. *)
Definition content_preview (content : pystr) : pystr :=
  if (300 <? length content)%nat then take 300 content ++ lit "..."
  else content.

(** The state [init_session_state] starts from. *)
Definition initial_session : session_state :=
  {| chat_history := []; uploaded_files := []; file_contents := ∅;
     current_context := [] |}.

(** What the upload and removal code keeps true of a session: stored
    names are distinct, [file_contents] maps exactly the stored names,
    each to the content stored for it, and while there are files the
    context is the one built from them. *)
Definition consistent (st : session_state) : Prop :=
  NoDup (map fi_name (uploaded_files st)) /\
  (forall f, In f (uploaded_files st) ->
     file_contents st !! fi_name f = Some (fi_content f)) /\
  (forall n, is_Some (file_contents st !! n)
             <-> In n (map fi_name (uploaded_files st))) /\
  (uploaded_files st <> [] ->
   current_context st
   = join [NL; NL] (map context_part (uploaded_files st))).

(** An upload that would be stored: its bytes can be read and
    [process_file] returns a success result. *)
Definition storable (env : AppEnv) (u : UploadedFile) : bool :=
  match up_read u with
  | inl _ => false
  | inr file_content =>
      match outcome (process_file (app_libs env) (app_processor env)
                       (PBytes file_content) (PStr (up_name u))
                       (PStr (up_type u))) with
      | inr result => success result
      | inl _ => false
      end
  end.

Definition sample_env : AppEnv :=
  {| app_libs := stub_libs; app_processor := stub_processor;
     app_clock := fun t => lit "2024-01-01 00:0" ++ str_of_nat t |}.

Definition sample_upload (name : string) (b : pybytes) : UploadedFile :=
  {| up_name := lit name; up_type := lit "application/octet-stream";
     up_read := inr b |}.

Definition empty_world : world :=
  {| session := initial_session; shown := []; ticks := 0 |}.

(** The session after storing an upload whose bytes are [b] and whose
    result is [r], stamped with [stamp]. *)
Definition stored (st : session_state) (u : UploadedFile) (b : pybytes)
    (r : ExtractionResult) (stamp : pystr) : session_state :=
  update_context
    {| chat_history := chat_history st;
       uploaded_files :=
         uploaded_files st
         ++ [ {| fi_name := up_name u; fi_type := up_type u;
                 fi_size := length b; fi_content := content r;
                 fi_metadata := metadata r; fi_processed_at := stamp |} ];
       file_contents := <[up_name u := content r]> (file_contents st);
       current_context := current_context st |}.

Definition stored_names (st : session_state) : list pystr :=
  map fi_name (uploaded_files st).


(** * Properties *)

(** ** Laws of the computation monad *)

Section MonadLaws.

Context {A B : Type}.

Lemma outcome_bind (m : M A) (k : A -> M B) :
  outcome (bind m k) =
  match outcome m with inl e => inl e | inr a => outcome (k a) end.
Proof.
  destruct m as [t [e|a]]; simpl; [reflexivity|].
  destruct (k a); reflexivity.
Qed.

Lemma trace_bind (m : M A) (k : A -> M B) :
  trace (bind m k) =
  trace m ++ match outcome m with inl _ => [] | inr a => trace (k a) end.
Proof.
  destruct m as [t [e|a]]; simpl; [by rewrite app_nil_r|].
  destruct (k a); reflexivity.
Qed.

Lemma outcome_try_except (m : M A) (h : exn -> M A) :
  outcome (try_except m h) =
  match outcome m with inl e => outcome (h e) | inr a => inr a end.
Proof.
  destruct m as [t [e|a]]; simpl; [|reflexivity].
  destruct (h e); reflexivity.
Qed.

Lemma trace_try_except (m : M A) (h : exn -> M A) :
  trace (try_except m h) =
  trace m ++ match outcome m with inl e => trace (h e) | inr _ => [] end.
Proof.
  destruct m as [t [e|a]]; simpl; [|by rewrite app_nil_r].
  destruct (h e); reflexivity.
Qed.

Lemma outcome_try_except_class cls (m : M A) (h : exn -> M A) :
  outcome (try_except_class cls m h) =
  match outcome m with
  | inl e => if exc_class_eqb (exn_class e) cls then outcome (h e) else inl e
  | inr a => inr a
  end.
Proof.
  destruct m as [t [e|a]]; simpl; [|reflexivity].
  destruct (exc_class_eqb _ _); [|reflexivity].
  destruct (h e); reflexivity.
Qed.

(** A handler that does not raise makes the whole [try] return. *)
Lemma returns_try_except (m : M A) (h : exn -> M A) :
  (forall e, returns (h e)) -> returns (try_except m h).
Proof.
  intros Hh. unfold returns. rewrite outcome_try_except.
  destruct (outcome m) as [e|a]; [apply Hh | by exists a].
Qed.


Lemma post_ret (Q : A -> Prop) (a : A) : Q a -> post Q (ret a).
Proof. done. Qed.

Lemma post_any (Q : A -> Prop) (m : M A) : (forall a, Q a) -> post Q m.
Proof. intros H. unfold post. destruct (outcome m); [done | apply H]. Qed.

Lemma post_bind (Q : B -> Prop) (m : M A) (k : A -> M B) :
  (forall a, post Q (k a)) -> post Q (bind m k).
Proof.
  intros H. unfold post. rewrite outcome_bind.
  destruct (outcome m) as [e|a]; [done | apply H].
Qed.

Lemma post_try_except (Q : A -> Prop) (m : M A) (h : exn -> M A) :
  post Q m -> (forall e, post Q (h e)) -> post Q (try_except m h).
Proof.
  intros Hm Hh. unfold post in *. rewrite outcome_try_except.
  destruct (outcome m) as [e|a]; [apply Hh | done].
Qed.

Lemma post_try_except_class (Q : A -> Prop) cls (m : M A) (h : exn -> M A) :
  post Q m -> (forall e, post Q (h e)) -> post Q (try_except_class cls m h).
Proof.
  intros Hm Hh. unfold post in *. rewrite outcome_try_except_class.
  destruct (outcome m) as [e|a]; [|done].
  destruct (exc_class_eqb _ _); [apply Hh | done].
Qed.

End MonadLaws.

Lemma secondary_calls_app (t1 t2 : list event) :
  secondary_calls (t1 ++ t2) = (secondary_calls t1 + secondary_calls t2)%nat.
Proof. unfold secondary_calls. by rewrite List.filter_app, length_app. Qed.

(** ** Shape of the results *)

(** Proves [post result_shape m] for a monadic block ending in one of the
    two result dictionaries. *)
Ltac shape_block :=
  repeat first
    [ apply post_ret; constructor
    | apply post_bind; intros ?
    | match goal with |- post _ (match ?x with _ => _ end) => destruct x end
    | match goal with |- post _ (if ?x then _ else _) => destruct x end ].

Ltac shape_extractor :=
  first [apply post_try_except | apply post_try_except_class];
  [shape_block | intros ?; shape_block].

Section Shapes.

Variable L : Libs.

Lemma _process_pdf_shape fc : post result_shape (_process_pdf L fc).
Proof. unfold _process_pdf. shape_extractor. Qed.

Lemma _process_word_shape fc : post result_shape (_process_word L fc).
Proof. unfold _process_word. shape_extractor. Qed.

Lemma _process_text_shape fc : post result_shape (_process_text L fc).
Proof.
  unfold _process_text. apply post_try_except_class; [shape_block|].
  intros _. shape_extractor.
Qed.

Lemma _process_csv_shape fc : post result_shape (_process_csv L fc).
Proof. unfold _process_csv. shape_extractor. Qed.

Lemma _process_excel_shape fc : post result_shape (_process_excel L fc).
Proof. unfold _process_excel. shape_extractor. Qed.

Lemma _process_image_shape self fc :
  post result_shape (_process_image L self fc).
Proof. unfold _process_image. shape_extractor. Qed.

Lemma _process_powerpoint_shape fc :
  post result_shape (_process_powerpoint L fc).
Proof. unfold _process_powerpoint. shape_extractor. Qed.

Lemma _process_json_shape fc : post result_shape (_process_json L fc).
Proof. unfold _process_json. shape_extractor. Qed.

Lemma _process_generic_shape fc : post result_shape (_process_generic L fc).
Proof. unfold _process_generic. shape_extractor. Qed.

Lemma dispatch_shape self ext fc :
  post result_shape (dispatch L self ext fc).
Proof.
  unfold dispatch.
  repeat match goal with |- post _ (if ?x then _ else _) => destruct x end;
    auto using _process_pdf_shape, _process_word_shape, _process_text_shape,
      _process_csv_shape, _process_excel_shape, _process_image_shape,
      _process_powerpoint_shape, _process_json_shape, _process_generic_shape.
Qed.

Lemma process_file_shape self fc fn ft :
  post result_shape (process_file L self fc fn ft).
Proof.
  unfold process_file, process_file_try.
  apply post_try_except; [|intros e; apply post_ret; constructor].
  apply post_bind; intros ext. apply dispatch_shape.
Qed.

Lemma process_file_returns self fc fn ft :
  returns (process_file L self fc fn ft).
Proof.
  unfold process_file. apply returns_try_except.
  intros e. by eexists.
Qed.

End Shapes.

(** ** The coordinator *)

(** The [try] block of the coordinator does raise on some inputs: a
    filename that is not a string has no [split], and a text file whose
    content is not a [bytes] object has no [decode], which the text
    extractor's [except UnicodeDecodeError] lets through. *)
Example process_file_try_raises_on_filename :
  outcome (process_file_try stub_libs stub_processor (PBytes []) PNone)
  = inl (attribute_error PNone "split").
Proof. reflexivity. Qed.

Example process_file_try_raises_in_text :
  outcome (process_file_try stub_libs stub_processor
             (PStr (lit "hello")) (PStr (lit "notes.txt")))
  = inl (attribute_error (PStr (lit "hello")) "decode").
Proof. reflexivity. Qed.

(** An unknown extension with valid UTF-8 content goes to the generic
    extractor and succeeds. *)
Example unknown_extension_generic_text :
  outcome (process_file stub_libs stub_processor (PBytes [x68; x69])
             (PStr (lit "notes.xyz")) (PStr (lit "application/octet-stream")))
  = inr (ok_result (lit "hi") {[ "size" := PInt 2 ]} "Generic Text").
Proof. reflexivity. Qed.

(** The extension is matched in lower case, after the last dot. *)
Example extension_is_lowercased :
  file_extension stub_libs (PStr (lit "Scan.2024.PNG")) = ret (lit "png").
Proof. reflexivity. Qed.

(** C1. For every file content, filename and declared MIME type,
    [process_file] returns a result record and raises nothing: when its
    [try] block returns a record, that record is the result; when the
    block raises an exception [e] (one no extractor handled), the result
    has [success = False], the error string [str(e)], empty content and
    empty metadata. *)
Theorem process_file_never_raises (L : Libs) (self : DocumentProcessor)
    (file_content filename file_type : pyval) :
  exists r : ExtractionResult,
    outcome (process_file L self file_content filename file_type) = inr r /\
    match outcome (process_file_try L self file_content filename) with
    | inr r' => r = r'
    | inl e =>
        success r = false /\ error r = Some (exn_str e) /\
        content r = [] /\ metadata r = ∅ /\ type r = None
    end.
Proof.
  unfold process_file. rewrite outcome_try_except.
  destruct (outcome (process_file_try L self file_content filename)) as [e|r'].
  - exists (error_result (exn_str e)). repeat split.
  - exists r'. split; reflexivity.
Qed.

(** C9. The declared MIME type plays no part: with the same content and
    filename, any two declared types give the same result (and the same
    terminal output and OCR engine calls). *)
Theorem process_file_ignores_file_type (L : Libs) (self : DocumentProcessor)
    (file_content filename file_type1 file_type2 : pyval) :
  process_file L self file_content filename file_type1
  = process_file L self file_content filename file_type2.
Proof. reflexivity. Qed.

(** C2, as stated, fails: an empty [.txt] file is decoded successfully to
    the empty string, so the result has its type set, no error, and empty
    content; neither side of the stated invariant holds. *)
Lemma empty_text_file_breaks_invariant :
  exists r : ExtractionResult,
    outcome (process_file stub_libs stub_processor (PBytes [])
               (PStr (lit "empty.txt")) (PStr (lit "text/plain"))) = inr r /\
    ~ exactly_one (content_and_type_set r) (error_populated r).
Proof.
  eexists. split; [reflexivity|].
  unfold exactly_one, content_and_type_set, error_populated. simpl.
  intros [[[Hc _] _] | [_ He]].
  - by apply Hc.
  - by destruct He.
Qed.

(** C2, amended. For every input, the result of [process_file] has exactly
    one of: the type set, or the error populated. The type is set exactly
    when [success] is true (and the content may then be empty); when the
    error is populated, [success] is false and content and metadata are
    empty. *)
Theorem process_file_type_xor_error (L : Libs) (self : DocumentProcessor)
    (file_content filename file_type : pyval) :
  exists r : ExtractionResult,
    outcome (process_file L self file_content filename file_type) = inr r /\
    exactly_one (is_Some (type r)) (error_populated r) /\
    (is_Some (type r) <-> success r = true) /\
    (error_populated r <->
       success r = false /\ content r = [] /\ metadata r = ∅).
Proof.
  destruct (process_file_returns L self file_content filename file_type)
    as [r Hr].
  pose proof (process_file_shape L self file_content filename file_type) as Hs.
  unfold post in Hs. rewrite Hr in Hs.
  exists r. split; [done|].
  unfold exactly_one, error_populated.
  destruct Hs as [c m t | msg]; simpl.
  - split; [left; split; [by eexists | by intros [? ?]]|].
    split; [split; [done | by eexists]|].
    split; [by intros [? ?] | by intros [? _]].
  - split; [right; split; [by intros [? ?] | by eexists]|].
    split; [split; [by intros [? ?] | done]|].
    split; [done | by eexists].
Qed.

(** ** Plain text *)

Lemma bind_ret_l {A B} (a : A) (k : A -> M B) : bind (ret a) k = k a.
Proof. unfold bind, ret. by destruct (k a). Qed.

Lemma bind_lift_inr {A B} (a : A) (k : A -> M B) :
  bind (lift (inr a)) k = k a.
Proof. apply bind_ret_l. Qed.

(** The Latin-1 decoder accepts every buffer. *)
Lemma decode_latin1_returns (L : Libs) (bs : pybytes) :
  decode L (PBytes bs) Latin1 = ret (latin1_decode bs).
Proof. reflexivity. Qed.

(** C4. A buffer that is not well-formed UTF-8 is still extracted by the
    plain-text extractor: the result has [success = True], the Latin-1
    decoding as content, and a metadata mapping that holds the encoding
    name ['latin-1'] and neither the line count nor the character
    count. *)
Theorem _process_text_latin1_fallback (L : Libs) (bs : pybytes) :
  utf8_decode bs = None ->
  exists r : ExtractionResult,
    _process_text L (PBytes bs) = ret r /\
    success r = true /\
    content r = latin1_decode bs /\
    type r = Some (lit "Text File") /\
    error r = None /\
    metadata r = {[ "encoding" := PStr (lit "latin-1") ]} /\
    metadata r !! "lines" = None /\
    metadata r !! "characters" = None.
Proof.
  intros Hbad. eexists. split.
  - unfold _process_text, decode. rewrite Hbad. reflexivity.
  - simpl. repeat split; reflexivity.
Qed.

Lemma _process_text_latin1_fallback_witness :
  utf8_decode [xff; x41] = None /\
  exists r : ExtractionResult,
    _process_text stub_libs (PBytes [xff; x41]) = ret r /\
    success r = true /\
    content r = [255; 65] /\
    type r = Some (lit "Text File") /\
    error r = None /\
    metadata r = {[ "encoding" := PStr (lit "latin-1") ]} /\
    metadata r !! "lines" = None /\
    metadata r !! "characters" = None.
Proof.
  split; [reflexivity|].
  apply (_process_text_latin1_fallback stub_libs [xff; x41]). reflexivity.
Defined.

(** ** Structured data *)

(** C8. For a buffer that decodes as UTF-8 to a text [json.loads]
    accepts, the structured-data extractor returns [success = True]; the
    metadata holds the name of the parsed value's type under ['type'], and
    under ['keys'] the list of the value's keys when the value is a
    mapping and [None] when it is not, so a key list is recorded exactly
    for mappings. *)
Theorem _process_json_metadata (L : Libs) (bs : pybytes) (text : pystr)
    (data : json) :
  utf8_decode bs = Some text ->
  json_loads L text = inr data ->
  exists r : ExtractionResult,
    _process_json L (PBytes bs) = ret r /\
    success r = true /\
    metadata r !! "type" = Some (PStr (lit (json_type_name data))) /\
    ((exists ks, metadata r !! "keys" = Some (PList ks))
       <-> is_dict data = true) /\
    (forall kvs, data = JDict kvs ->
       metadata r !! "keys" = Some (PList (map (fun kv => PStr kv.1) kvs))) /\
    (is_dict data = false -> metadata r !! "keys" = Some PNone).
Proof.
  intros Hdec Hload. eexists. split.
  - unfold _process_json, decode. rewrite Hdec. rewrite bind_ret_l.
    rewrite Hload. reflexivity.
  - simpl. split; [done|]. split; [done|].
    change (_ !! "keys") with (Some (json_keys data)).
    split; [|split].
    + destruct data; simpl; split;
        try (intros [ks Hks]; discriminate); try discriminate; eauto.
    + intros kvs ->. reflexivity.
    + destruct data; simpl; try discriminate; reflexivity.
Qed.

Lemma _process_json_metadata_witness :
  exists r : ExtractionResult,
    _process_json stub_libs (PBytes [x7b; x7d]) = ret r /\
    success r = true /\
    metadata r !! "type" = Some (PStr (lit "dict")) /\
    ((exists ks, metadata r !! "keys" = Some (PList ks))
       <-> is_dict (JDict []) = true) /\
    (forall kvs, JDict [] = JDict kvs ->
       metadata r !! "keys" = Some (PList (map (fun kv => PStr kv.1) kvs))) /\
    (is_dict (JDict []) = false -> metadata r !! "keys" = Some PNone).
Proof.
  apply (_process_json_metadata stub_libs [x7b; x7d] [123; 125] (JDict []));
    reflexivity.
Defined.

(** ** Classification by extension *)

Lemma split_nonempty (sep : N) (s : pystr) : split sep s <> [].
Proof.
  destruct s as [|c s]; simpl; [done|].
  destruct (c =? sep); [done|]. by destruct (split sep s).
Qed.

(** A string without the separator is its own single field. *)
Lemma split_no_sep (sep : N) (s : pystr) :
  ~ In sep s -> split sep s = [s].
Proof.
  induction s as [|c s IH]; simpl; [done|].
  intros Hnot. destruct (N.eqb_spec c sep) as [->|Hne].
  - exfalso. apply Hnot. by left.
  - rewrite IH; [done|]. intros Hin. apply Hnot. by right.
Qed.

(** Splitting distributes over a separator in the middle. *)
Lemma split_app_sep (sep : N) (p s : pystr) :
  split sep (p ++ sep :: s) = split sep p ++ split sep s.
Proof.
  induction p as [|c p IH]; simpl.
  - by rewrite N.eqb_refl.
  - destruct (c =? sep); [by rewrite IH|].
    rewrite IH. pose proof (split_nonempty sep p) as Hne.
    by destruct (split sep p).
Qed.

(** The last field of [stem + '.' + ext] is [ext] when [ext] has no dot. *)
Lemma last_item_split_ext (stem ext : pystr) :
  ~ In 46 ext -> last_item (split 46 (stem ++ 46 :: ext)) = ext.
Proof.
  intros Hnot. unfold last_item.
  rewrite split_app_sep, (split_no_sep 46 ext Hnot).
  by rewrite List.last_last.
Qed.






(** ** Tabular data *)

(** [', '.join] returns exactly when every label is a string. *)
Lemma str_items_inv (items : list pyval) :
  forall (i : nat) (strs : list pystr),
    outcome (str_items i items) = inr strs -> items = map PStr strs.
Proof.
  induction items as [|v rest IH]; intros i strs; simpl.
  - intros [= <-]. reflexivity.
  - destruct v; try discriminate.
    rewrite outcome_bind.
    destruct (outcome (str_items (S i) rest)) as [e|tl] eqn:Hrest;
      [discriminate|].
    intros [= <-]. simpl. f_equal. by apply (IH (S i)).
Qed.


Lemma df_head_length (n : nat) (df : dataframe) :
  length (df_rows (df_head n df)) = Nat.min n (length (df_rows df)).
Proof. simpl. apply length_firstn. Qed.

Section Tabular.

Variable L : Libs.
Variable read : pybytes -> exn + dataframe.
Variables heading label : string.

Lemma table_extractor_success (b : pybytes) (r : ExtractionResult) :
  outcome (tabular_extractor L read heading label (PBytes b)) = inr r ->
  success r = true ->
  exists df, read b = inr df /\ tabular_result L heading df r.
Proof.
  unfold tabular_extractor. cbn [BytesIO].
  rewrite outcome_try_except, bind_ret_l, outcome_bind.
  unfold lift at 1. cbn [outcome snd].
  destruct (read b) as [e|df]; [by intros [= <-]|].
  unfold table_summary, join_values. rewrite !outcome_bind.
  destruct (outcome (str_items 0 (df_columns df))) as [e|names] eqn:Hnames;
    [by intros [= <-]|].
  simpl. intros [= <-] _.
  exists df. split; [done|]. exists names.
  apply str_items_inv in Hnames.
  split; [done|]. split.
  - simpl. unfold summary_text, df_len.
    by rewrite Hnames, length_map.
  - split; [done|]. split; [rewrite df_head_length; lia|].
    split; [|done].
    intros Hlong Heq. apply (f_equal (fun d => length (df_rows d))) in Heq.
    rewrite df_head_length in Heq. lia.
Qed.


End Tabular.





(** ** The OCR chain *)

(** Runs the monadic combinators as far as the known values allow. *)
Ltac run :=
  cbn [try_except bind print print_extracted emit ret lift raise
       outcome trace fst snd].

Section OCR.

Variable L : Libs.

(** The primary pass never raises, and leaves the engine's text or, on an
    engine exception, the text it was given. *)
Lemma primary_pass_outcome (gray : image) (before : pystr) :
  outcome (primary_pass L gray before) = inr (primary_text L gray before).
Proof.
  unfold primary_pass, primary_text.
  destruct (image_to_string L gray) as [e|t]; [reflexivity|].
  run. destruct (truthy (strip t)); reflexivity.
Qed.

Lemma primary_pass_secondary_calls (gray : image) (before : pystr) :
  secondary_calls (trace (primary_pass L gray before)) = 0%nat.
Proof.
  unfold primary_pass.
  destruct (image_to_string L gray) as [e|t]; [reflexivity|].
  run. destruct (truthy (strip t)); reflexivity.
Qed.

Lemma secondary_pass_outcome (self : DocumentProcessor) (img : image)
    (before : pystr) :
  outcome (secondary_pass L self img before)
  = inr (secondary_text L self img before).
Proof.
  unfold secondary_pass, secondary_text.
  destruct (negb (truthy (strip before))); [|reflexivity].
  destruct (ocr_reader self) as [rd|]; [|reflexivity].
  destruct (np_array L img) as [e|arr]; [reflexivity|].
  run. destruct (readtext rd arr) as [e|results]; [reflexivity|].
  run. destruct (truthy (strip (join (lit " ") (map det_text results))));
    reflexivity.
Qed.

Lemma secondary_pass_calls (self : DocumentProcessor) (img : image)
    (before : pystr) :
  secondary_calls (trace (secondary_pass L self img before))
  = if secondary_invoked L self img before then 1%nat else 0%nat.
Proof.
  unfold secondary_pass, secondary_invoked.
  destruct (negb (truthy (strip before))); [|reflexivity].
  destruct (ocr_reader self) as [rd|]; [|reflexivity].
  destruct (np_array L img) as [e|arr]; [reflexivity|].
  run. destruct (readtext rd arr) as [e|results]; [reflexivity|].
  run. destruct (truthy (strip (join (lit " ") (map det_text results))));
    reflexivity.
Qed.

(** The image extractor on a buffer that opens as [img] and converts to
    grayscale as [gray]: the result, and the engine calls, are those of
    the two passes. *)
Lemma _process_image_decoded (self : DocumentProcessor) (fc : pyval)
    (b : pybytes) (img gray : image) :
  BytesIO fc = ret b ->
  Image_open L b = inr img ->
  Image_convert L img "L" = inr gray ->
  let t1 := primary_text L gray [] in
  let t2 := secondary_text L self img t1 in
  outcome (_process_image L self fc)
  = inr (ok_result
           (ocr_prefix ++ (if negb (truthy (strip t2))
                           then no_text_sentinel else t2))
           (image_metadata img) "Image File") /\
  secondary_calls (trace (_process_image L self fc))
  = if secondary_invoked L self img t1 then 1%nat else 0%nat.
Proof.
  intros Hb Hopen Hconv t1 t2.
  pose proof (primary_pass_outcome gray []) as Hp1.
  pose proof (primary_pass_secondary_calls gray []) as Hc1.
  pose proof (secondary_pass_outcome self img t1) as Hp2.
  pose proof (secondary_pass_calls self img t1) as Hc2.
  fold t1 in Hp1. fold t2 in Hp2.
  unfold _process_image. rewrite Hb. run. rewrite Hopen. run.
  rewrite Hconv. run.
  destruct (primary_pass L gray []) as [tr1 [e1|x1]];
    simpl in Hp1, Hc1; [discriminate|]. injection Hp1 as ->. run.
  destruct (secondary_pass L self img t1) as [tr2 [e2|x2]];
    simpl in Hp2, Hc2; [discriminate|]. injection Hp2 as ->. run.
  split; [reflexivity|].
  rewrite !secondary_calls_app, Hc1, Hc2.
  by destruct (secondary_invoked L self img t1).
Qed.

End OCR.

Lemma blank_empty : blank [].
Proof. reflexivity. Qed.

Lemma BytesIO_cases (fc : pyval) :
  (exists b, BytesIO fc = ret b) \/ (exists e, BytesIO fc = raise e).
Proof. destruct fc; simpl; eauto. Qed.

(** The image extractor succeeds only on a buffer that opens as an image
    and converts to grayscale. *)
Lemma _process_image_success_inv (L : Libs) (self : DocumentProcessor)
    (fc : pyval) (r : ExtractionResult) :
  outcome (_process_image L self fc) = inr r ->
  success r = true ->
  exists b img gray,
    BytesIO fc = ret b /\ Image_open L b = inr img /\
    Image_convert L img "L" = inr gray.
Proof.
  intros Hout Hok.
  destruct (BytesIO_cases fc) as [[b Hb] | [e Hb]].
  - destruct (Image_open L b) as [e|img] eqn:Hopen.
    + unfold _process_image in Hout. rewrite Hb in Hout.
      cbn [try_except bind print ret raise lift outcome snd] in Hout.
      rewrite Hopen in Hout.
      cbn [try_except bind print ret raise lift outcome snd] in Hout.
      injection Hout as <-. discriminate.
    + destruct (Image_convert L img "L") as [e|gray] eqn:Hconv.
      * unfold _process_image in Hout. rewrite Hb in Hout.
        cbn [try_except bind print ret raise lift outcome snd] in Hout.
        rewrite Hopen in Hout.
        cbn [try_except bind print ret raise lift outcome snd] in Hout.
        rewrite Hconv in Hout.
        cbn [try_except bind print ret raise lift outcome snd] in Hout.
        injection Hout as <-. discriminate.
      * by exists b, img, gray.
  - unfold _process_image in Hout. rewrite Hb in Hout.
    cbn [try_except bind print ret raise lift outcome snd] in Hout.
    injection Hout as <-. discriminate.
Qed.

(** The secondary engine is reached on a blank buffer of the stand-in
    libraries, and not on one with text. *)
Example secondary_engine_runs_on_blank :
  secondary_calls
    (trace (_process_image stub_libs stub_processor (PBytes [x20])))
  = 1%nat /\
  primary_calls
    (trace (_process_image stub_libs stub_processor (PBytes [x20])))
  = 1%nat.
Proof. split; reflexivity. Qed.

Example secondary_engine_idle_on_text :
  secondary_calls
    (trace (_process_image stub_libs stub_processor (PBytes [x48; x69])))
  = 0%nat /\
  outcome (_process_image stub_libs stub_processor (PBytes [x48; x69]))
  = inr (ok_result (lit "Image OCR Results:" ++ [NL] ++ lit "Hi")
           (image_metadata
              {| img_format := Some (lit "PNG"); img_size := (2, 1)%nat;
                 img_mode := lit "RGB"; img_data := [x48; x69] |})
           "Image File").
Proof. split; reflexivity. Qed.

(** C3. On a buffer that opens as an image and converts to grayscale: if
    the primary engine returns text that is not blank after [strip], the
    secondary engine is not invoked; and whenever the secondary engine is
    invoked, the processor holds a secondary engine instance and the
    primary pass left blank text (the engine returned it, or raised). The
    secondary engine is invoked at most once. *)
Theorem secondary_engine_only_after_blank_primary (L : Libs)
    (self : DocumentProcessor) (b : pybytes) (img gray : image) :
  Image_open L b = inr img ->
  Image_convert L img "L" = inr gray ->
  (forall t, image_to_string L gray = inr t -> truthy (strip t) = true ->
     secondary_calls (trace (_process_image L self (PBytes b))) = 0%nat) /\
  (secondary_calls (trace (_process_image L self (PBytes b))) <> 0%nat ->
     is_Some (ocr_reader self) /\ blank (primary_text L gray [])) /\
  (secondary_calls (trace (_process_image L self (PBytes b))) <= 1)%nat.
Proof.
  intros Hopen Hconv.
  destruct (_process_image_decoded L self (PBytes b) b img gray
              eq_refl Hopen Hconv) as [_ Hcalls].
  rewrite Hcalls. unfold secondary_invoked, blank.
  split; [|split].
  - intros t Ht Htext. unfold primary_text. rewrite Ht, Htext. reflexivity.
  - destruct (truthy (strip (primary_text L gray []))); simpl; [done|].
    destruct (ocr_reader self) as [rd|]; [|done].
    intros _. split; [by eexists | done].
  - destruct (negb _); [|lia].
    destruct (ocr_reader self); [|lia].
    destruct (np_array L img); lia.
Qed.

Lemma secondary_engine_only_after_blank_primary_witness :
  let img := {| img_format := Some (lit "PNG"); img_size := (2, 1)%nat;
                img_mode := lit "RGB"; img_data := [x48; x69] |} in
  let gray := {| img_format := None; img_size := (2, 1)%nat;
                 img_mode := lit "L"; img_data := [x48; x69] |} in
  (forall t, image_to_string stub_libs gray = inr t ->
     truthy (strip t) = true ->
     secondary_calls
       (trace (_process_image stub_libs stub_processor (PBytes [x48; x69])))
     = 0%nat) /\
  (secondary_calls
     (trace (_process_image stub_libs stub_processor (PBytes [x48; x69])))
   <> 0%nat ->
     is_Some (ocr_reader stub_processor) /\
     blank (primary_text stub_libs gray [])) /\
  (secondary_calls
     (trace (_process_image stub_libs stub_processor (PBytes [x48; x69])))
   <= 1)%nat.
Proof.
  intros img gray.
  apply (secondary_engine_only_after_blank_primary stub_libs stub_processor
           [x48; x69] img gray); reflexivity.
Defined.

(** When neither engine yields text, the text after both passes is
    blank. *)
Lemma secondary_text_blank (L : Libs) (self : DocumentProcessor)
    (img gray : image) :
  (forall t, image_to_string L gray = inr t -> blank t) ->
  (forall rd arr results,
     ocr_reader self = Some rd -> np_array L img = inr arr ->
     readtext rd arr = inr results ->
     blank (join (lit " ") (map det_text results))) ->
  blank (secondary_text L self img (primary_text L gray [])).
Proof.
  intros Hprimary Hsecondary.
  assert (blank (primary_text L gray [])) as Hb1.
  { unfold primary_text.
    destruct (image_to_string L gray) as [e|t] eqn:Ht;
      [apply blank_empty | by apply Hprimary]. }
  unfold secondary_text.
  destruct (negb (truthy (strip (primary_text L gray [])))); [|done].
  destruct (ocr_reader self) as [rd|] eqn:Hrd; [|done].
  destruct (np_array L img) as [e|arr] eqn:Harr; [done|].
  destruct (readtext rd arr) as [e|results] eqn:Hres; [done|].
  by apply (Hsecondary rd arr).
Qed.

(** C7. On a buffer that opens as an image and converts to grayscale,
    when the primary engine yields no text (it raises, or returns blank
    text) and the secondary engine yields no text either (there is none,
    it raises, or its fragments join to blank text), the image extractor
    returns [success = True], the content ["Image OCR Results:\nNo text
    detected in image"], and metadata holding the size, the colour mode
    and the source format of the image. *)
Theorem _process_image_no_text (L : Libs) (self : DocumentProcessor)
    (b : pybytes) (img gray : image) :
  Image_open L b = inr img ->
  Image_convert L img "L" = inr gray ->
  (forall t, image_to_string L gray = inr t -> blank t) ->
  (forall rd arr results,
     ocr_reader self = Some rd -> np_array L img = inr arr ->
     readtext rd arr = inr results ->
     blank (join (lit " ") (map det_text results))) ->
  exists r : ExtractionResult,
    outcome (_process_image L self (PBytes b)) = inr r /\
    success r = true /\
    content r = lit "Image OCR Results:" ++ [NL]
                ++ lit "No text detected in image" /\
    type r = Some (lit "Image File") /\
    error r = None /\
    metadata r !! "size"
    = Some (PTuple [PInt (Z.of_nat (img_size img).1);
                    PInt (Z.of_nat (img_size img).2)]) /\
    metadata r !! "mode" = Some (PStr (img_mode img)) /\
    metadata r !! "format" = Some (pyval_of_option (img_format img)).
Proof.
  intros Hopen Hconv Hprimary Hsecondary.
  destruct (_process_image_decoded L self (PBytes b) b img gray
              eq_refl Hopen Hconv) as [Hout _].
  pose proof (secondary_text_blank L self img gray Hprimary Hsecondary) as Hb.
  unfold blank in Hb. rewrite Hb in Hout. simpl negb in Hout.
  eexists. split; [exact Hout|].
  repeat split; reflexivity.
Qed.

Lemma _process_image_no_text_witness :
  exists r : ExtractionResult,
    outcome (_process_image stub_libs stub_processor (PBytes [x20; x0a]))
    = inr r /\
    success r = true /\
    content r = lit "Image OCR Results:" ++ [NL]
                ++ lit "No text detected in image" /\
    type r = Some (lit "Image File") /\
    error r = None /\
    metadata r !! "size" = Some (PTuple [PInt 2; PInt 1]) /\
    metadata r !! "mode" = Some (PStr (lit "RGB")) /\
    metadata r !! "format" = Some (PStr (lit "PNG")).
Proof.
  apply (_process_image_no_text stub_libs stub_processor [x20; x0a]
           {| img_format := Some (lit "PNG"); img_size := (2, 1)%nat;
              img_mode := lit "RGB"; img_data := [x20; x0a] |}
           {| img_format := None; img_size := (2, 1)%nat;
              img_mode := lit "L"; img_data := [x20; x0a] |}).
  - reflexivity.
  - reflexivity.
  - intros t [= <-]. reflexivity.
  - intros rd arr results [= <-] [= <-] [= <-]. reflexivity.
Defined.

(** C10. Whenever the image extractor succeeds, the content begins with
    ["Image OCR Results:\n"]; what follows is the recognised text, which
    is not blank, or else the sentinel ["No text detected in image"]. *)
Theorem _process_image_content_prefix (L : Libs) (self : DocumentProcessor)
    (file_content : pyval) (r : ExtractionResult) :
  outcome (_process_image L self file_content) = inr r ->
  success r = true ->
  exists text : pystr,
    content r = lit "Image OCR Results:" ++ [NL] ++ text /\
    (truthy (strip text) = true \/ text = lit "No text detected in image").
Proof.
  intros Hout Hok.
  destruct (_process_image_success_inv L self file_content r Hout Hok)
    as (b & img & gray & Hb & Hopen & Hconv).
  destruct (_process_image_decoded L self file_content b img gray
              Hb Hopen Hconv) as [Hres _].
  rewrite Hres in Hout. injection Hout as <-.
  eexists. split; [reflexivity|].
  destruct (truthy (strip (secondary_text L self img (primary_text L gray []))))
    eqn:Htext; simpl; [by left | by right].
Qed.

Lemma _process_image_content_prefix_witness :
  exists r : ExtractionResult,
    outcome (_process_image stub_libs stub_processor (PBytes [x48; x69]))
    = inr r /\
    success r = true /\
    exists text : pystr,
      content r = lit "Image OCR Results:" ++ [NL] ++ text /\
      (truthy (strip text) = true \/ text = lit "No text detected in image").
Proof.
  assert (exists r, outcome (_process_image stub_libs stub_processor
                               (PBytes [x48; x69])) = inr r
                    /\ success r = true) as [r [Hr Hs]]
    by (eexists; split; reflexivity).
  exists r. split; [exact Hr|]. split; [exact Hs|].
  exact (_process_image_content_prefix stub_libs stub_processor
           (PBytes [x48; x69]) r Hr Hs).
Defined.

(** * Further properties of the extractors *)

(** ** Plain text and generic text *)

Lemma split_length (sep : N) (s : pystr) :
  length (split sep s) = S (count_char sep s).
Proof.
  unfold count_char. induction s as [|c s IH]; simpl; [done|].
  rewrite (N.eqb_sym sep c). destruct (c =? sep); simpl; [by rewrite IH|].
  destruct (split sep s) as [|w ws]; simpl in *; lia.
Qed.

(** X1. On a [bytes] object the plain-text extractor always succeeds: the
    content is the UTF-8 decoding when the buffer is well formed and the
    Latin-1 decoding otherwise, and nothing is printed. *)
Theorem _process_text_bytes_succeeds (L : Libs) (bs : pybytes) :
  exists r : ExtractionResult,
    _process_text L (PBytes bs) = ret r /\
    success r = true /\ error r = None /\
    type r = Some (lit "Text File") /\
    content r = match utf8_decode bs with
                | Some s => s
                | None => latin1_decode bs
                end.
Proof.
  unfold _process_text, decode.
  destruct (utf8_decode bs) as [s|]; eexists; (split; [reflexivity|]);
    repeat split.
Qed.

(** X2. For well-formed UTF-8, the metadata of the plain-text extractor
    counts lines as one more than the number of newline characters (so an
    empty file has one line) and characters as code points, not bytes; no
    encoding is recorded. *)
Theorem _process_text_counts (L : Libs) (bs : pybytes) (s : pystr) :
  utf8_decode bs = Some s ->
  exists r : ExtractionResult,
    _process_text L (PBytes bs) = ret r /\
    content r = s /\
    metadata r !! "lines" = Some (PInt (Z.of_nat (S (count_char NL s)))) /\
    metadata r !! "characters" = Some (PInt (Z.of_nat (length s))) /\
    metadata r !! "encoding" = None.
Proof.
  intros Hs. unfold _process_text, decode. rewrite Hs.
  eexists. split; [reflexivity|]. simpl.
  split; [done|]. split; [|done].
  rewrite <- split_length. reflexivity.
Qed.

Lemma _process_text_counts_witness :
  exists r : ExtractionResult,
    _process_text stub_libs (PBytes [xc3; xa9; x0a; x62]) = ret r /\
    content r = [233; 10; 98] /\
    metadata r !! "lines" = Some (PInt 2) /\
    metadata r !! "characters" = Some (PInt 3) /\
    metadata r !! "encoding" = None.
Proof.
  apply (_process_text_counts stub_libs [xc3; xa9; x0a; x62] [233; 10; 98]).
  reflexivity.
Defined.

(** X3. The generic extractor succeeds exactly on a [bytes] object that is
    well-formed UTF-8, recording the number of code points as ['size'];
    on anything else it returns the one fixed message, whatever the
    cause. *)
Theorem _process_generic_outcome (L : Libs) (file_content : pyval) :
  exists r : ExtractionResult,
    _process_generic L file_content = ret r /\
    (success r = true <->
       exists b, file_content = PBytes b /\ is_Some (utf8_decode b)) /\
    (success r = true ->
       type r = Some (lit "Generic Text") /\
       metadata r = {[ "size" := PInt (Z.of_nat (length (content r))) ]} /\
       exists b, file_content = PBytes b /\ utf8_decode b = Some (content r)) /\
    (success r = false -> r = error_result cannot_process).
Proof.
  unfold _process_generic, decode.
  destruct file_content as [|x|x|x|b|x|x];
    try (eexists; split; [reflexivity|]; simpl;
         split; [split; [done | by intros (b & Hb & _)]|];
         split; [done | reflexivity]).
  destruct (utf8_decode b) as [s|] eqn:Hs.
  - eexists. split; [reflexivity|]. simpl.
    split; [split; [intros _; eexists; split; [done|]; rewrite Hs; by eexists
                   | done]|].
    split; [|done]. intros _. split; [done|]. split; [done|]. by exists b.
  - eexists. split; [reflexivity|]. simpl.
    split; [split; [done|]|].
    + intros (b' & [= <-] & Hsome). rewrite Hs in Hsome. by destruct Hsome.
    + split; [done | reflexivity].
Qed.

(** ** Structured data *)

(** X4. The structured-data extractor never raises on a [bytes] object
    and succeeds exactly when the buffer is well-formed UTF-8 and
    [json.loads] accepts the text; the content is then the heading line
    followed by the re-serialised value. A decoding failure is reported
    with the decoder's message and a parse failure with the parser's. *)
Theorem _process_json_outcome (L : Libs) (bs : pybytes) :
  exists r : ExtractionResult,
    _process_json L (PBytes bs) = ret r /\
    (success r = true <->
       exists text data,
         utf8_decode bs = Some text /\ json_loads L text = inr data) /\
    (forall text data,
       utf8_decode bs = Some text -> json_loads L text = inr data ->
       content r = lit "JSON File Analysis:" ++ [NL] ++ json_dumps L data) /\
    (utf8_decode bs = None -> r = error_result (utf8_error_str L bs)) /\
    (forall text e,
       utf8_decode bs = Some text -> json_loads L text = inl e ->
       r = error_result (exn_str e)).
Proof.
  unfold _process_json, decode.
  destruct (utf8_decode bs) as [text|] eqn:Hdec.
  - rewrite bind_ret_l.
    destruct (json_loads L text) as [e|data] eqn:Hload.
    + eexists. split; [reflexivity|]. simpl. split; [split; [done|]|].
      * intros (t & d & [= <-] & Hd). rewrite Hload in Hd. discriminate.
      * split; [by intros t d [= <-] Hd; rewrite Hload in Hd|].
        split; [done|].
        intros t e' [= <-] He. rewrite Hload in He. by injection He as <-.
    + eexists. split; [reflexivity|]. simpl. split; [split; [|done]|].
      * intros _. by exists text, data.
      * split; [|split; [done|]].
        -- intros t d [= <-] Hd. rewrite Hload in Hd. by injection Hd as <-.
        -- intros t e [= <-] He. rewrite Hload in He. discriminate.
  - eexists. split; [reflexivity|]. simpl. split; [split; [done|]|].
    + by intros (t & d & Ht & _).
    + split; [done|]. split; [done|]. by intros t e Ht.
Qed.

(** ** Whitespace trimming *)

Lemma lstrip_head (s : pystr) (c : N) (rest : pystr) :
  lstrip s = c :: rest -> is_space c = false.
Proof.
  induction s as [|x s IH]; simpl; [done|].
  destruct (is_space x) eqn:Hx; [exact IH|].
  by intros [= <- _].
Qed.

Lemma lstrip_suffix (s : pystr) : exists pre, s = pre ++ lstrip s.
Proof.
  induction s as [|x s [pre IH]]; simpl; [by exists []|].
  destruct (is_space x); [|by exists []].
  exists (x :: pre). simpl. by rewrite <- IH.
Qed.

(** [strip] leaves no whitespace at either end. *)
Lemma strip_trimmed (s : pystr) : trimmed (strip s).
Proof.
  unfold trimmed, strip. split.
  - intros c rest Hrev.
    destruct (lstrip_suffix (rev (lstrip s))) as [pre Hpre].
    apply (f_equal (@rev N)) in Hpre.
    rewrite rev_involutive, rev_app_distr, Hrev in Hpre.
    simpl in Hpre. by apply lstrip_head in Hpre.
  - intros c init Hrev.
    apply (f_equal (@rev N)) in Hrev.
    rewrite rev_involutive, rev_app_distr in Hrev. simpl in Hrev.
    by apply lstrip_head in Hrev.
Qed.

(** Stripping removes nothing from a string with text at both ends. *)
Lemma lstrip_nonspace (c : N) (s : pystr) :
  is_space c = false -> lstrip (c :: s) = c :: s.
Proof. intros H. simpl. by rewrite H. Qed.

(** ** Portable documents *)

Lemma read_pages_ok (doc : pdf_document) (texts : nat -> pystr)
    (nums : list nat) :
  forall acc : pystr,
    (forall i, In i nums -> page_text doc i = inr (texts i)) ->
    read_pages doc nums acc = ret (acc ++ pages_text texts nums).
Proof.
  unfold pages_text.
  induction nums as [|n nums IH]; intros acc Hall; cbn [read_pages map concat].
  - by rewrite app_nil_r.
  - rewrite (Hall n (or_introl eq_refl)), bind_lift_inr.
    rewrite IH; [|intros i Hi; apply Hall; by right].
    by rewrite <- !app_assoc.
Qed.

Lemma read_pages_fail (doc : pdf_document) (texts : nat -> pystr)
    (pre post : list nat) (n : nat) (e : exn) :
  forall acc : pystr,
    (forall i, In i pre -> page_text doc i = inr (texts i)) ->
    page_text doc n = inl e ->
    read_pages doc (pre ++ n :: post) acc = raise e.
Proof.
  induction pre as [|p pre IH]; intros acc Hall Hn; cbn [read_pages app].
  - rewrite Hn. reflexivity.
  - rewrite (Hall p (or_introl eq_refl)), bind_lift_inr.
    apply IH; [|done]. intros i Hi. apply Hall. by right.
Qed.

(** X5. A PDF one of whose pages cannot be read yields no partial
    content: when the pages before page [n] are read and page [n] raises,
    the extractor returns the failure result carrying that exception's
    message, whatever the later pages hold. *)
Theorem _process_pdf_page_failure (L : Libs) (file_content : pyval)
    (doc : pdf_document) (texts : nat -> pystr) (n : nat) (e : exn) :
  fitz_open L file_content = inr doc ->
  (n < page_count doc)%nat ->
  (forall i, (i < n)%nat -> page_text doc i = inr (texts i)) ->
  page_text doc n = inl e ->
  _process_pdf L file_content = ret (error_result (exn_str e)).
Proof.
  intros Hopen Hn Hbefore He. unfold _process_pdf.
  rewrite Hopen, bind_lift_inr.
  replace (seq 0 (page_count doc))
    with (seq 0 n ++ n :: seq (S n) (page_count doc - S n)).
  - rewrite (read_pages_fail doc texts _ _ n e); [reflexivity| |done].
    intros i Hi. apply Hbefore. apply in_seq in Hi. lia.
  - change (n :: seq (S n) (page_count doc - S n))
      with (seq n (S (page_count doc - S n))).
    replace (seq n (S (page_count doc - S n)))
      with (seq (0 + n) (S (page_count doc - S n))) by done.
    rewrite <- seq_app. f_equal. lia.
Qed.

Lemma _process_pdf_page_failure_witness :
  _process_pdf office_libs (PBytes [x41; x00; x42])
  = ret (error_result (lit "page is damaged")).
Proof.
  apply (_process_pdf_page_failure office_libs (PBytes [x41; x00; x42])
           (sample_pdf [x41; x00; x42]) (fun _ => [65]) 1
           (stub_error "page is damaged")).
  - reflexivity.
  - simpl. lia.
  - intros i Hi. assert (i = 0%nat) as -> by lia. reflexivity.
  - reflexivity.
Defined.

(** X6. When every page of a PDF is read and the document has a metadata
    mapping, the extractor succeeds; the content is the page texts in page
    order, each followed by a newline, with the whitespace at both ends
    removed, so it neither begins nor ends with whitespace; the metadata
    holds the page count, and as title the mapping's entry, or ['Unknown']
    when the mapping has no title entry. *)
Theorem _process_pdf_success (L : Libs) (file_content : pyval)
    (doc : pdf_document) (texts : nat -> pystr) (m : gmap string pyval) :
  fitz_open L file_content = inr doc ->
  (forall i, (i < page_count doc)%nat -> page_text doc i = inr (texts i)) ->
  pdf_metadata doc = Some m ->
  exists r : ExtractionResult,
    _process_pdf L file_content = ret r /\
    success r = true /\
    content r = strip (pages_text texts (seq 0 (page_count doc))) /\
    trimmed (content r) /\
    metadata r !! "pages" = Some (PInt (Z.of_nat (page_count doc))) /\
    metadata r !! "title"
    = Some (match m !! "title" with
            | Some title => title
            | None => PStr (lit "Unknown")
            end).
Proof.
  intros Hopen Hpages Hmeta. unfold _process_pdf.
  rewrite Hopen, bind_lift_inr.
  rewrite (read_pages_ok doc texts);
    [|intros i Hi; apply Hpages; apply in_seq in Hi; lia].
  rewrite bind_ret_l, Hmeta, bind_ret_l.
  eexists. split; [reflexivity|]. simpl.
  split; [done|]. split; [done|]. split; [apply strip_trimmed|].
  split; [done|]. by destruct (m !! "title").
Qed.

Lemma _process_pdf_success_witness :
  exists r : ExtractionResult,
    _process_pdf office_libs (PBytes [x20; x41; x42]) = ret r /\
    success r = true /\
    content r = strip (pages_text (fun i => match i with
                                            | O => [32] | S O => [65] | _ => [66]
                                            end) (seq 0 3)) /\
    trimmed (content r) /\
    metadata r !! "pages" = Some (PInt 3) /\
    metadata r !! "title" = Some (PStr (lit "Unknown")).
Proof.
  assert (forall i, (i < 3)%nat ->
            page_text (sample_pdf [x20; x41; x42]) i
            = inr (match i with O => [32] | S O => [65] | _ => [66] end))
    as Hpages.
  { intros i Hi. destruct i as [|[|[|i]]]; try reflexivity. lia. }
  exact (_process_pdf_success office_libs (PBytes [x20; x41; x42])
           (sample_pdf [x20; x41; x42])
           (fun i => match i with O => [32] | S O => [65] | _ => [66] end)
           {[ "author" := PStr (lit "unknown author") ]}
           eq_refl Hpages eq_refl).
Defined.

(** ** Office documents and slide decks *)

Lemma filter_nil_Forall {A} (f : A -> bool) (l : list A) :
  List.filter f l = [] <-> Forall (fun x => f x = false) l.
Proof.
  induction l as [|x l IH]; simpl; [split; [constructor | done]|].
  destruct (f x) eqn:Hx.
  - split; [done|]. intros H. inversion H; congruence.
  - rewrite IH. split; [by constructor|]. intros H. by inversion H.
Qed.

Lemma join_nil_inv (sep : pystr) (l : list pystr) :
  sep <> [] -> Forall (fun p => p <> []) l -> join sep l = [] -> l = [].
Proof.
  intros Hsep Hall. destruct l as [|p [|q l]]; simpl; [done| |].
  - intros ->. by inversion Hall.
  - intros H. apply app_eq_nil in H as [-> _]. by inversion Hall.
Qed.

Lemma nonblank_nonempty (p : pystr) : truthy (strip p) = true -> p <> [].
Proof. by intros H ->. Qed.

(** X7. On a buffer the Word reader accepts, the extractor succeeds and
    counts only the paragraphs that are not blank; its content is empty
    exactly when the document has no table and no paragraph with text. *)
Theorem _process_word_empty_content (L : Libs) (b : pybytes)
    (doc : word_document) :
  docx_Document L b = inr doc ->
  exists r : ExtractionResult,
    _process_word L (PBytes b) = ret r /\
    success r = true /\
    metadata r !! "paragraphs"
    = Some (PInt (Z.of_nat (length (List.filter
                                      (fun p => truthy (strip p))
                                      (paragraphs doc))))) /\
    metadata r !! "tables" = Some (PInt (Z.of_nat (length (tables doc)))) /\
    (content r = [] <-> tables doc = [] /\ Forall blank (paragraphs doc)).
Proof.
  intros Hdoc. unfold _process_word. cbn [BytesIO].
  rewrite bind_ret_l, Hdoc, bind_lift_inr.
  eexists. split; [reflexivity|]. simpl.
  split; [done|]. split; [done|]. split; [by rewrite length_map|].
  destruct (tables doc) as [|t ts]; simpl.
  - split.
    + intros Hnil. split; [done|].
      apply filter_nil_Forall.
      apply (join_nil_inv [NL]); [done| |done].
      apply List.Forall_forall. intros p Hp.
      apply List.filter_In in Hp as [_ Hp]. by apply nonblank_nonempty.
    + intros [_ Hblank]. apply filter_nil_Forall in Hblank.
      by rewrite Hblank.
  - split; [|by intros [? _]].
    intros Hnil. apply app_eq_nil in Hnil as [_ Hnil]. discriminate.
Qed.

Lemma _process_word_empty_content_witness :
  exists r : ExtractionResult,
    _process_word office_libs (PBytes [x20; x0a; x09]) = ret r /\
    success r = true /\
    metadata r !! "paragraphs"
    = Some (PInt (Z.of_nat (length (List.filter
                                      (fun p => truthy (strip p))
                                      [[32]; [9]])))) /\
    metadata r !! "tables" = Some (PInt 0) /\
    (content r = [] <-> @nil (list (list pystr)) = [] /\
                        Forall blank [[32]; [9]]).
Proof.
  exact (_process_word_empty_content office_libs [x20; x0a; x09]
           (sample_docx [x20; x0a; x09]) eq_refl).
Defined.

Lemma shape_lines_bullets (shapes : list (option pystr)) :
  concat (map shape_line shapes)
  = concat (map (fun t => lit "- " ++ strip t ++ [NL]) (bullet_texts shapes)).
Proof.
  unfold bullet_texts.
  induction shapes as [|[t|] shapes IH]; simpl; [done| |done].
  destruct (truthy (strip t)); simpl; by rewrite IH.
Qed.

(** X8. On a buffer the slide-deck reader accepts, the extractor succeeds
    with one block per slide, joined by newlines; the block of the slide
    at position [i] (from 0) begins with the header ["Slide i+1:"] and
    continues with one line ["- text"] for each shape that has text which
    is not blank, stripped, in shape order; shapes without text or with
    blank text leave no line. The metadata holds the number of slides. *)
Theorem _process_powerpoint_blocks (L : Libs) (b : pybytes)
    (prs : presentation) :
  Presentation L b = inr prs ->
  exists (r : ExtractionResult) (blocks : list pystr),
    _process_powerpoint L (PBytes b) = ret r /\
    success r = true /\
    content r = join [NL] blocks /\
    length blocks = length (slides prs) /\
    metadata r !! "slides" = Some (PInt (Z.of_nat (length (slides prs)))) /\
    forall (i : nat) (shapes : list (option pystr)),
      slides prs !! i = Some shapes ->
      blocks !! i
      = Some (lit "Slide " ++ str_of_nat (i + 1) ++ lit ":" ++ [NL]
              ++ concat (map (fun t => lit "- " ++ strip t ++ [NL])
                           (bullet_texts shapes))).
Proof.
  intros Hprs. unfold _process_powerpoint. cbn [BytesIO].
  rewrite bind_ret_l, Hprs, bind_lift_inr.
  eexists. exists (imap slide_text (slides prs)).
  split; [reflexivity|]. simpl.
  split; [done|]. split; [done|]. split; [apply length_imap|].
  split; [done|].
  intros i shapes Hi. rewrite list_lookup_imap, Hi. simpl.
  unfold slide_text. rewrite shape_lines_bullets.
  by replace (i + 1)%nat with (S i) by lia.
Qed.

Lemma _process_powerpoint_blocks_witness :
  exists (r : ExtractionResult) (blocks : list pystr),
    _process_powerpoint office_libs (PBytes [x41; x20]) = ret r /\
    success r = true /\
    content r = join [NL] blocks /\
    length blocks = 2%nat /\
    metadata r !! "slides" = Some (PInt 2) /\
    forall (i : nat) (shapes : list (option pystr)),
      [[Some [65]; None]; [Some [32]; None]] !! i = Some shapes ->
      blocks !! i
      = Some (lit "Slide " ++ str_of_nat (i + 1) ++ lit ":" ++ [NL]
              ++ concat (map (fun t => lit "- " ++ strip t ++ [NL])
                           (bullet_texts shapes))).
Proof.
  exact (_process_powerpoint_blocks office_libs [x41; x20]
           (sample_pptx [x41; x20]) eq_refl).
Defined.

(** ** More on the OCR chain *)

Lemma primary_calls_app (t1 t2 : list event) :
  primary_calls (t1 ++ t2) = (primary_calls t1 + primary_calls t2)%nat.
Proof. unfold primary_calls. by rewrite List.filter_app, length_app. Qed.

(** X9. When the buffer does not open as an image, or the opened image
    cannot be converted to grayscale, the image extractor returns the
    failure result with the library's message and invokes neither OCR
    engine. *)
Theorem _process_image_decode_failure (L : Libs) (self : DocumentProcessor)
    (b : pybytes) (e : exn) :
  Image_open L b = inl e \/
  (exists img, Image_open L b = inr img /\ Image_convert L img "L" = inl e) ->
  outcome (_process_image L self (PBytes b)) = inr (error_result (exn_str e)) /\
  primary_calls (trace (_process_image L self (PBytes b))) = 0%nat /\
  secondary_calls (trace (_process_image L self (PBytes b))) = 0%nat.
Proof.
  intros [Hopen | (img & Hopen & Hconv)]; unfold _process_image;
    cbn [BytesIO]; run; rewrite Hopen; run; [|rewrite Hconv; run];
    repeat split.
Qed.

Lemma _process_image_decode_failure_witness :
  outcome (_process_image stub_libs stub_processor (PBytes []))
  = inr (error_result (lit "cannot identify image file")) /\
  primary_calls (trace (_process_image stub_libs stub_processor (PBytes [])))
  = 0%nat /\
  secondary_calls (trace (_process_image stub_libs stub_processor (PBytes [])))
  = 0%nat.
Proof.
  apply (_process_image_decode_failure stub_libs stub_processor []
           (stub_error "cannot identify image file")).
  left. reflexivity.
Defined.

(** X10. Text found by the primary engine is reported as the engine
    returned it: when that text is not blank, the content is the prefix
    followed by the text itself, untrimmed, whether or not a secondary
    engine exists. *)
Theorem _process_image_primary_text (L : Libs) (self : DocumentProcessor)
    (b : pybytes) (img gray : image) (t : pystr) :
  Image_open L b = inr img ->
  Image_convert L img "L" = inr gray ->
  image_to_string L gray = inr t ->
  truthy (strip t) = true ->
  outcome (_process_image L self (PBytes b))
  = inr (ok_result (lit "Image OCR Results:" ++ [NL] ++ t)
           (image_metadata img) "Image File").
Proof.
  intros Hopen Hconv Ht Htext.
  destruct (_process_image_decoded L self (PBytes b) b img gray
              eq_refl Hopen Hconv) as [Hout _].
  rewrite Hout. unfold secondary_text, primary_text.
  rewrite Ht, Htext. simpl. by rewrite Htext.
Qed.

Lemma _process_image_primary_text_witness :
  outcome (_process_image stub_libs stub_processor (PBytes [x48; x69; x0a]))
  = inr (ok_result (lit "Image OCR Results:" ++ [NL] ++ [72; 105; 10])
           (image_metadata
              {| img_format := Some (lit "PNG"); img_size := (2, 1)%nat;
                 img_mode := lit "RGB"; img_data := [x48; x69; x0a] |})
           "Image File").
Proof.
  exact (_process_image_primary_text stub_libs stub_processor
           [x48; x69; x0a] _ _ [72; 105; 10]
           eq_refl eq_refl eq_refl eq_refl).
Defined.

(** X11. When the primary pass leaves blank text and the secondary engine
    returns regions whose texts, joined by single spaces in the order
    returned, are not blank, the content is the prefix followed by that
    joined text. *)
Theorem _process_image_secondary_text (L : Libs) (self : DocumentProcessor)
    (b : pybytes) (img gray : image) (rd : reader) (arr : ndarray)
    (results : list detection) :
  Image_open L b = inr img ->
  Image_convert L img "L" = inr gray ->
  blank (primary_text L gray []) ->
  ocr_reader self = Some rd ->
  np_array L img = inr arr ->
  readtext rd arr = inr results ->
  truthy (strip (join (lit " ") (map det_text results))) = true ->
  outcome (_process_image L self (PBytes b))
  = inr (ok_result (lit "Image OCR Results:" ++ [NL]
                    ++ join (lit " ") (map det_text results))
           (image_metadata img) "Image File").
Proof.
  intros Hopen Hconv Hblank Hrd Harr Hres Htext.
  destruct (_process_image_decoded L self (PBytes b) b img gray
              eq_refl Hopen Hconv) as [Hout _].
  rewrite Hout. unfold secondary_text. unfold blank in Hblank.
  rewrite Hblank, Hrd, Harr, Hres. simpl. by rewrite Htext.
Qed.

Lemma _process_image_secondary_text_witness :
  outcome (_process_image scan_libs scan_processor (PBytes [x01]))
  = inr (ok_result (lit "Image OCR Results:" ++ [NL] ++ lit "Invoice Total")
           (image_metadata
              {| img_format := Some (lit "PNG"); img_size := (2, 1)%nat;
                 img_mode := lit "RGB"; img_data := [x01] |})
           "Image File").
Proof.
  exact (_process_image_secondary_text scan_libs scan_processor [x01]
           _ _ scan_reader _ _
           eq_refl eq_refl eq_refl eq_refl eq_refl eq_refl eq_refl).
Defined.

(** ** Where output and engine calls can come from *)

Section Silent.

Context {A B : Type}.

Lemma silent_ret (a : A) : silent (ret a).
Proof. done. Qed.

Lemma silent_raise (e : exn) : silent (@raise A e).
Proof. done. Qed.

Lemma silent_lift (r : exn + A) : silent (lift r).
Proof. done. Qed.

Lemma silent_bind (m : M A) (k : A -> M B) :
  silent m -> (forall a, silent (k a)) -> silent (bind m k).
Proof.
  unfold silent. intros Hm Hk. rewrite trace_bind, Hm.
  destruct (outcome m); [done | apply Hk].
Qed.

Lemma silent_try_except (m : M A) (h : exn -> M A) :
  silent m -> (forall e, silent (h e)) -> silent (try_except m h).
Proof.
  unfold silent. intros Hm Hh. rewrite trace_try_except, Hm.
  destruct (outcome m); [apply Hh | done].
Qed.

Lemma silent_try_except_class cls (m : M A) (h : exn -> M A) :
  silent m -> (forall e, silent (h e)) -> silent (try_except_class cls m h).
Proof.
  unfold silent. intros Hm Hh.
  destruct m as [t [e|a]]; simpl in *; subst; [|done].
  destruct (exc_class_eqb _ _); [|done].
  specialize (Hh e). destruct (h e). simpl in *. by subst.
Qed.

End Silent.

Lemma silent_BytesIO (v : pyval) : silent (BytesIO v).
Proof. by destruct v. Qed.

Lemma silent_decode (L : Libs) (v : pyval) (c : codec) : silent (decode L v c).
Proof. destruct v, c; try done; simpl; by destruct (utf8_decode _). Qed.

Lemma silent_split_dot (v : pyval) : silent (split_dot v).
Proof. by destruct v. Qed.

Lemma silent_read_pages (doc : pdf_document) (nums : list nat) :
  forall acc, silent (read_pages doc nums acc).
Proof.
  induction nums as [|n nums IH]; intros acc; cbn [read_pages];
    [apply silent_ret|].
  apply silent_bind; [apply silent_lift | intros t; apply IH].
Qed.

Lemma silent_str_items (items : list pyval) :
  forall i, silent (str_items i items).
Proof.
  induction items as [|v items IH]; intros i; cbn [str_items];
    [apply silent_ret|].
  destruct v; try apply silent_raise.
  apply silent_bind; [apply IH | intros r; apply silent_ret].
Qed.

(** Proves [silent m] for a block of calls none of which prints or
    reaches an engine. *)
Ltac silent_block :=
  repeat first
    [ apply silent_ret | apply silent_raise | apply silent_lift
    | apply silent_BytesIO | apply silent_decode | apply silent_split_dot
    | apply silent_read_pages | apply silent_str_items
    | apply silent_try_except_class; [|intros ?]
    | apply silent_try_except; [|intros ?]
    | apply silent_bind; [|intros ?]
    | match goal with |- silent (match ?x with _ => _ end) => destruct x end ].

Section SilentExtractors.

Variable L : Libs.

Lemma silent__process_pdf fc : silent (_process_pdf L fc).
Proof. unfold _process_pdf. silent_block. Qed.

Lemma silent__process_word fc : silent (_process_word L fc).
Proof. unfold _process_word. silent_block. Qed.

Lemma silent__process_text fc : silent (_process_text L fc).
Proof. unfold _process_text. silent_block. Qed.

Lemma silent__process_csv fc : silent (_process_csv L fc).
Proof. unfold _process_csv, table_summary, join_values. silent_block. Qed.

Lemma silent__process_excel fc : silent (_process_excel L fc).
Proof. unfold _process_excel, table_summary, join_values. silent_block. Qed.

Lemma silent__process_powerpoint fc : silent (_process_powerpoint L fc).
Proof. unfold _process_powerpoint. silent_block. Qed.

Lemma silent__process_json fc : silent (_process_json L fc).
Proof. unfold _process_json. silent_block. Qed.

Lemma silent__process_generic fc : silent (_process_generic L fc).
Proof. unfold _process_generic. silent_block. Qed.

Lemma silent_file_extension fn : silent (file_extension L fn).
Proof. unfold file_extension. silent_block. Qed.

(** Every branch of the dispatch other than the image one is silent. *)
Lemma silent_dispatch self ext fc :
  str_in ext image_extensions = false -> silent (dispatch L self ext fc).
Proof.
  intros Hext. unfold dispatch. fold image_extensions. rewrite Hext.
  repeat match goal with |- silent (if ?x then _ else _) => destruct x end;
    auto using silent__process_pdf, silent__process_word,
      silent__process_text, silent__process_csv, silent__process_excel,
      silent__process_powerpoint, silent__process_json,
      silent__process_generic.
Qed.

End SilentExtractors.

(** X12. Only image files print to the terminal or reach an OCR engine:
    when the extension of the filename is not one of the seven image
    extensions (or the filename has no [split]), [process_file] leaves no
    event at all. *)
Theorem process_file_silent_unless_image (L : Libs)
    (self : DocumentProcessor) (file_content filename file_type : pyval) :
  (forall ext, outcome (file_extension L filename) = inr ext ->
     str_in ext image_extensions = false) ->
  trace (process_file L self file_content filename file_type) = [].
Proof.
  intros Hext. change (silent (process_file L self file_content filename
                                 file_type)).
  unfold process_file, process_file_try.
  apply silent_try_except; [|intros e; apply silent_ret].
  pose proof (silent_file_extension L filename) as Hsil.
  destruct (file_extension L filename) as [t [e|ext]] eqn:Hfe;
    unfold silent in Hsil; simpl in Hsil; subst t; [done|].
  rewrite (bind_ret_l ext). apply silent_dispatch. by apply Hext.
Qed.

Lemma process_file_silent_unless_image_witness :
  trace (process_file stub_libs stub_processor (PBytes [x41; x42])
           (PStr (lit "table.csv")) (PStr (lit "text/csv"))) = [].
Proof.
  apply process_file_silent_unless_image.
  intros ext [= <-]. reflexivity.
Defined.

(** The image extractor reaches the secondary engine at most once, and
    not at all without a reader. *)
Lemma _process_image_secondary_bound (L : Libs) (self : DocumentProcessor)
    (fc : pyval) :
  (secondary_calls (trace (_process_image L self fc)) <= 1)%nat /\
  (ocr_reader self = None ->
   secondary_calls (trace (_process_image L self fc)) = 0%nat).
Proof.
  destruct (BytesIO_cases fc) as [[b Hb] | [e Hb]].
  - destruct (Image_open L b) as [e|img] eqn:Hopen.
    + unfold _process_image. rewrite Hb. run. rewrite Hopen. run.
      split; [|intros _]; vm_compute; lia.
    + destruct (Image_convert L img "L") as [e|gray] eqn:Hconv.
      * unfold _process_image. rewrite Hb. run. rewrite Hopen. run.
        rewrite Hconv. run. split; [|intros _]; vm_compute; lia.
      * destruct (_process_image_decoded L self fc b img gray
                    Hb Hopen Hconv) as [_ Hcalls].
        rewrite Hcalls. unfold secondary_invoked. split.
        -- destruct (negb _); [|lia]. destruct (ocr_reader self); [|lia].
           destruct (np_array L img); lia.
        -- intros ->. by destruct (negb _).
  - unfold _process_image. rewrite Hb. run.
    split; [|intros _]; vm_compute; lia.
Qed.

Lemma process_file_secondary_calls (L : Libs) (self : DocumentProcessor)
    (file_content filename file_type : pyval) :
  (secondary_calls
     (trace (process_file L self file_content filename file_type)) <= 1)%nat /\
  (ocr_reader self = None ->
   secondary_calls
     (trace (process_file L self file_content filename file_type)) = 0%nat).
Proof.
  assert (forall ext,
            (secondary_calls (trace (dispatch L self ext file_content)) <= 1)%nat
            /\ (ocr_reader self = None ->
                secondary_calls (trace (dispatch L self ext file_content))
                = 0%nat)) as Hdispatch.
  { intros ext.
    destruct (str_in ext image_extensions) eqn:Himg.
    - assert (dispatch L self ext file_content
              = _process_image L self file_content) as ->.
      { unfold dispatch. fold image_extensions. rewrite Himg.
        unfold str_in, image_extensions in Himg. cbn [existsb] in Himg.
        repeat match goal with |- (if ?x then _ else _) = _ =>
          destruct x eqn:?; [try (vm_compute in Himg; discriminate)|] end;
          try reflexivity;
          unfold str_eqb, str_in in *; cbn [existsb] in *;
          repeat match goal with
            | H : bool_decide _ = true |- _ => apply bool_decide_eq_true in H
            | H : (_ || _) = true |- _ => apply orb_true_iff in H as [H|H]
            end; subst; try discriminate; vm_compute in Himg; discriminate. }
      apply _process_image_secondary_bound.
    - rewrite (silent_dispatch L self ext file_content Himg).
      split; [vm_compute; lia | done]. }
  unfold process_file, process_file_try.
  rewrite trace_try_except, trace_bind, !secondary_calls_app.
  rewrite (silent_file_extension L filename).
  destruct (outcome (file_extension L filename)) as [e|ext] eqn:Hfe.
  - rewrite outcome_bind, Hfe. split; [|intros _]; vm_compute; lia.
  - destruct (Hdispatch ext) as [Hle Hnone].
    rewrite outcome_bind, Hfe.
    destruct (outcome (dispatch L self ext file_content));
      change (secondary_calls []) with 0%nat;
      change (secondary_calls (trace (ret _))) with 0%nat;
      split; try lia; intros Hr; rewrite (Hnone Hr); lia.
Qed.

(** X13. Whatever the file, [process_file] invokes the secondary OCR
    engine at most once, and never when the processor holds no reader. *)
Theorem process_file_secondary_bound (L : Libs) (self : DocumentProcessor)
    (file_content filename file_type : pyval) :
  (secondary_calls
     (trace (process_file L self file_content filename file_type)) <= 1)%nat /\
  (ocr_reader self = None ->
   secondary_calls
     (trace (process_file L self file_content filename file_type)) = 0%nat).
Proof. apply process_file_secondary_calls. Qed.

(** X14. Constructing the processor never raises. When the EasyOCR reader
    cannot be built, the processor holds no reader, and no file makes it
    invoke the secondary engine; when it can, the processor holds that
    reader. *)
Theorem __init___reader (L : Libs) :
  exists self : DocumentProcessor,
    __init__ L = ret self /\
    match easyocr_Reader L [lit "en"] with
    | inr rd => ocr_reader self = Some rd
    | inl _ =>
        ocr_reader self = None /\
        forall file_content filename file_type,
          secondary_calls
            (trace (process_file L self file_content filename file_type))
          = 0%nat
    end.
Proof.
  unfold __init__.
  destruct (easyocr_Reader L [lit "en"]) as [e|rd].
  - eexists. split; [reflexivity|]. split; [reflexivity|].
    intros fc fn ft. by apply process_file_secondary_calls.
  - eexists. split; reflexivity.
Qed.

(** ** More on tabular data *)

Lemma str_items_fail (names : list pystr) (v : pyval) (rest : list pyval) :
  is_str v = false ->
  forall i,
    str_items i (map PStr names ++ v :: rest)
    = raise (Exn TypeError (join_type_error (i + length names) v)).
Proof.
  intros Hv. induction names as [|s names IH]; intros i;
    cbn [map app str_items length].
  - rewrite Nat.add_0_r. by destruct v.
  - rewrite IH. by replace (i + S (length names))%nat
                    with (S i + length names)%nat by lia.
Qed.

Lemma tabular_extractor_label_failure (L : Libs)
    (read : pybytes -> exn + dataframe) (heading label : string)
    (b : pybytes) (df : dataframe) (names : list pystr) (v : pyval)
    (rest : list pyval) :
  read b = inr df ->
  df_columns df = map PStr names ++ v :: rest ->
  is_str v = false ->
  tabular_extractor L read heading label (PBytes b)
  = ret (error_result (join_type_error (length names) v)).
Proof.
  intros Hread Hcols Hv. unfold tabular_extractor, table_summary, join_values.
  cbn [BytesIO]. rewrite bind_ret_l, Hread, bind_lift_inr.
  rewrite Hcols, (str_items_fail names v rest Hv 0). reflexivity.
Qed.

(** X15. A table that the reader parses but whose column labels are not
    all strings (a spreadsheet with a numeric header cell, say) is not
    extracted: both tabular extractors return the failure result whose
    message names the position and the type of the first label that is
    not a string. *)
Theorem tabular_label_failure (L : Libs) (b : pybytes) (df : dataframe)
    (names : list pystr) (v : pyval) (rest : list pyval) :
  df_columns df = map PStr names ++ v :: rest ->
  is_str v = false ->
  (pd_read_csv L b = inr df ->
   _process_csv L (PBytes b)
   = ret (error_result (join_type_error (length names) v))) /\
  (pd_read_excel L b = inr df ->
   _process_excel L (PBytes b)
   = ret (error_result (join_type_error (length names) v))).
Proof.
  intros Hcols Hv. split; intros Hread.
  - exact (tabular_extractor_label_failure L (pd_read_csv L) _ "CSV File"
             b df names v rest Hread Hcols Hv).
  - exact (tabular_extractor_label_failure L (pd_read_excel L) _ "Excel File"
             b df names v rest Hread Hcols Hv).
Qed.

Lemma tabular_label_failure_witness :
  _process_excel stub_libs (PBytes [x31])
  = ret (error_result
           (lit "sequence item 0: expected str instance, int found")).
Proof.
  exact (proj2 (tabular_label_failure stub_libs [x31]
                  {| df_columns := [PInt 2024]; df_rows := [[PInt 49]] |}
                  [] (PInt 2024) [] eq_refl eq_refl) eq_refl).
Defined.

Lemma tabular_extractor_rows_beyond (L : Libs)
    (read : pybytes -> exn + dataframe) (heading label : string)
    (b1 b2 : pybytes) (df1 df2 : dataframe) :
  read b1 = inr df1 -> read b2 = inr df2 ->
  df_columns df1 = df_columns df2 ->
  length (df_rows df1) = length (df_rows df2) ->
  firstn 10 (df_rows df1) = firstn 10 (df_rows df2) ->
  tabular_extractor L read heading label (PBytes b1)
  = tabular_extractor L read heading label (PBytes b2).
Proof.
  intros H1 H2 Hcols Hlen Hhead.
  unfold tabular_extractor, table_summary, table_metadata, df_len, df_head.
  cbn [BytesIO]. rewrite !bind_ret_l, H1, H2, !bind_lift_inr.
  by rewrite Hcols, Hlen, Hhead.
Qed.

(** X16. The result of a tabular extractor does not depend on the rows
    after the tenth: two buffers parsed to tables with the same column
    labels, the same number of rows and the same first ten rows give the
    same result. *)
Theorem tabular_rows_beyond_preview (L : Libs) (b1 b2 : pybytes)
    (df1 df2 : dataframe) :
  df_columns df1 = df_columns df2 ->
  length (df_rows df1) = length (df_rows df2) ->
  firstn 10 (df_rows df1) = firstn 10 (df_rows df2) ->
  (pd_read_csv L b1 = inr df1 -> pd_read_csv L b2 = inr df2 ->
   _process_csv L (PBytes b1) = _process_csv L (PBytes b2)) /\
  (pd_read_excel L b1 = inr df1 -> pd_read_excel L b2 = inr df2 ->
   _process_excel L (PBytes b1) = _process_excel L (PBytes b2)).
Proof.
  intros Hcols Hlen Hhead. split; intros H1 H2.
  - exact (tabular_extractor_rows_beyond L (pd_read_csv L) _ "CSV File"
             b1 b2 df1 df2 H1 H2 Hcols Hlen Hhead).
  - exact (tabular_extractor_rows_beyond L (pd_read_excel L) _ "Excel File"
             b1 b2 df1 df2 H1 H2 Hcols Hlen Hhead).
Qed.

Lemma tabular_rows_beyond_preview_witness :
  _process_csv stub_libs (PBytes (sample_table_bytes 10 ++ [x41; x42]))
  = _process_csv stub_libs (PBytes (sample_table_bytes 10 ++ [x43; x44])).
Proof.
  pose (table := fun b : pybytes =>
          {| df_columns := [PStr (lit "value")];
             df_rows := map (fun x => [PInt (Z.of_N (Byte.to_N x))]) b |}).
  exact (proj1 (tabular_rows_beyond_preview stub_libs
                  (sample_table_bytes 10 ++ [x41; x42])
                  (sample_table_bytes 10 ++ [x43; x44])
                  (table (sample_table_bytes 10 ++ [x41; x42]))
                  (table (sample_table_bytes 10 ++ [x43; x44]))
                  eq_refl eq_refl eq_refl) eq_refl eq_refl).
Defined.

(** ** More on the dispatch *)

(** X17. Only what follows the last dot of the filename matters, and only
    up to letter case: two filenames whose parts after the last dot have
    the same lower-case form are processed alike, whatever precedes the
    dot. *)
Theorem process_file_extension_only (L : Libs) (self : DocumentProcessor)
    (file_content file_type : pyval) (stem1 stem2 ext1 ext2 : pystr) :
  ~ In 46 ext1 -> ~ In 46 ext2 ->
  lower L ext1 = lower L ext2 ->
  process_file L self file_content (PStr (stem1 ++ 46 :: ext1)) file_type
  = process_file L self file_content (PStr (stem2 ++ 46 :: ext2)) file_type.
Proof.
  intros H1 H2 Hlow.
  unfold process_file, process_file_try, file_extension, split_dot.
  by rewrite !bind_ret_l, !last_item_split_ext, Hlow.
Qed.

Lemma process_file_extension_only_witness :
  process_file stub_libs stub_processor (PBytes [x41]) 
    (PStr (lit "report.final" ++ 46 :: lit "TXT")) PNone
  = process_file stub_libs stub_processor (PBytes [x41])
      (PStr (lit "a" ++ 46 :: lit "txt")) PNone.
Proof.
  apply process_file_extension_only; [| |reflexivity];
    vm_compute; intros H; repeat destruct H as [H|H]; try discriminate; done.
Defined.

(** * Properties of the AI engine *)

Lemma str_in_In (s : pystr) (l : list string) :
  str_in s l = true <-> In s (map lit l).
Proof.
  unfold str_in, str_eqb. rewrite existsb_exists. split.
  - intros (x & Hx & Heq). apply bool_decide_eq_true in Heq. subst.
    by apply in_map.
  - intros Hin. apply in_map_iff in Hin as (x & <- & Hx).
    exists x. split; [done|]. by apply bool_decide_eq_true.
Qed.

Lemma fold_left_append_filter {A B} (f : A -> bool) (g : A -> B)
    (l : list A) :
  forall init : list B,
    fold_left (fun acc x => if f x then acc ++ [g x] else acc) l init
    = init ++ map g (List.filter f l).
Proof.
  induction l as [|x l IH]; intros init; simpl; [by rewrite app_nil_r|].
  rewrite IH. destruct (f x); simpl; [by rewrite <- app_assoc | done].
Qed.

Lemma recent_history_suffix (h : list chat_entry) :
  exists older, h = older ++ recent_history h /\
                length (recent_history h) = Nat.min 10 (length h).
Proof.
  unfold recent_history. destruct (Nat.ltb_spec 10 (length h)) as [Hlong|Hshort].
  - exists (take (length h - 10) h). split; [by rewrite take_drop|].
    rewrite length_drop. lia.
  - exists []. split; [done | lia].
Qed.

(** X18. The messages built for the API call are the system message,
    which embeds the context, followed by the entries with role [user] or
    [assistant] among the last ten of the chat history, in their order and
    without their timestamps: at most eleven messages, whatever the length
    of the history, and whatever the [user_message] argument, which is not
    used. *)
Theorem _build_messages_shape (user_message context : pystr)
    (chat_history : list chat_entry) :
  exists older recent : list chat_entry,
    chat_history = older ++ recent /\
    length recent = Nat.min 10 (length chat_history) /\
    _build_messages user_message context chat_history
    = system_message context
      :: map message_of_entry (List.filter is_chat_role recent) /\
    (length (_build_messages user_message context chat_history) <= 11)%nat.
Proof.
  destruct (recent_history_suffix chat_history) as (older & Hsplit & Hlen).
  exists older, (recent_history chat_history).
  split; [done|]. split; [done|].
  assert (_build_messages user_message context chat_history
          = system_message context
            :: map message_of_entry
                 (List.filter is_chat_role (recent_history chat_history)))
    as Heq.
  { unfold _build_messages.
    apply (fold_left_append_filter is_chat_role message_of_entry). }
  split; [done|]. rewrite Heq. simpl. rewrite length_map.
  pose proof (List.filter_length_le is_chat_role (recent_history chat_history)).
  lia.
Qed.

Lemma reply_of_trimmed (net : Net) (result : json) (t : pystr) :
  reply_of net result = inr t -> trimmed t.
Proof.
  unfold reply_of, and_then.
  destruct (getitem_key net result "choices") as [|c1]; [done|].
  destruct (getitem_0 net c1) as [|c2]; [done|].
  destruct (getitem_key net c2 "message") as [|c3]; [done|].
  destruct (getitem_key net c3 "content") as [|c4]; [done|].
  destruct c4; simpl; try done. intros [= <-]. apply strip_trimmed.
Qed.

(** X19. [generate_response] always returns a string. If the request
    raises, or the response has status 200 but its body is not JSON or
    lacks [choices[0].message.content] as a string, the reply is the
    apology naming the exception; if the status is not 200, one error is
    shown and the reply is the fixed message, whatever the body; otherwise
    the reply is the content of the first choice with the whitespace at
    both ends removed. *)
Theorem generate_response_cases (net : Net) (self : AIEngine)
    (user_message context : pystr) (chat_history : list chat_entry) :
  let rq := request_for self
              (_build_messages user_message context chat_history) in
  let reply := generate_response net self user_message context chat_history in
  match http_post net rq with
  | inl e => reply = ([], apology e)
  | inr resp =>
      if (status_code resp =? 200)%Z
      then match and_then (json_body resp) (reply_of net) with
           | inr t => reply = ([], t) /\ trimmed t
           | inl e => reply = ([], apology e)
           end
      else reply = ([UIError (lit "API Error " ++ str_of_Z (status_code resp)
                              ++ lit ": " ++ resp_text resp)],
                    api_unreachable)
  end.
Proof.
  intros rq reply. subst reply rq.
  unfold generate_response, _call_openrouter_api, request_for.
  destruct (http_post net _) as [e|resp]; [reflexivity|].
  destruct (status_code resp =? 200)%Z; [|reflexivity].
  destruct (json_body resp) as [e|result]; simpl; [reflexivity|].
  destruct (reply_of net result) as [e|t] eqn:Hreply; [reflexivity|].
  split; [reflexivity|]. by apply (reply_of_trimmed net result).
Qed.

(** The echo server answers a chat of three entries, one of them a
    system notice, with the number of messages it received. *)
Example generate_response_echo :
  generate_response echo_net sample_engine (lit "hello") (lit "no files")
    [ {| entry_role := lit "user"; entry_content := lit "hi";
         entry_timestamp := 1 |};
      {| entry_role := lit "notice"; entry_content := lit "uploaded";
         entry_timestamp := 2 |};
      {| entry_role := lit "user"; entry_content := lit "hello";
         entry_timestamp := 3 |} ]
  = ([], lit "3").
Proof. reflexivity. Qed.

(** X20. The email assistant does not guard the API call: when the
    request raises, [write_email] and [reply_to_email] raise the same
    exception, where [generate_response] turns it into its apology. *)
Theorem email_assistant_propagates (net : Net) (ai_engine : AIEngine)
    (e : exn) :
  (forall rq, http_post net rq = inl e) ->
  (forall context requirements,
     write_email net ai_engine context requirements = ([], inl e)) /\
  (forall original_email context instructions,
     reply_to_email net ai_engine original_email context instructions
     = ([], inl e)) /\
  (forall user_message context chat_history,
     generate_response net ai_engine user_message context chat_history
     = ([], apology e)).
Proof.
  intros Hdown. split; [|split]; intros;
    unfold write_email, reply_to_email, generate_response,
      _call_openrouter_api; by rewrite Hdown.
Qed.

Lemma email_assistant_propagates_witness :
  write_email down_net sample_engine (lit "report") (lit "ask for a meeting")
  = ([], inl (Exn OtherException (lit "All connection attempts failed"))).
Proof.
  apply (email_assistant_propagates down_net sample_engine
           (Exn OtherException (lit "All connection attempts failed"))).
  intros rq. reflexivity.
Defined.

(** X21. [change_model] accepts exactly the six model identifiers of the
    configuration: it returns [True] and sets the model for one of them,
    and returns [False] and leaves the engine as it was for any other
    name (a display name included). An engine whose model is one of the
    six keeps that property. *)
Theorem change_model_accepts (self : AIEngine) (model_name : pystr) :
  let available := map (fun kv => lit kv.2) AVAILABLE_MODELS in
  (In model_name available ->
   change_model self model_name
   = ({| api_key := api_key self; base_url := base_url self;
         app_name := app_name self; model := model_name |}, true)) /\
  (~ In model_name available -> change_model self model_name = (self, false)) /\
  (In (model self) available ->
   In (model (change_model self model_name).1) available).
Proof.
  intros available.
  assert (str_in model_name (map snd AVAILABLE_MODELS) = true
          <-> In model_name available) as Hiff.
  { rewrite str_in_In. unfold available. by rewrite map_map. }
  unfold change_model.
  destruct (str_in model_name (map snd AVAILABLE_MODELS)) eqn:Hin.
  - split; [done|]. split; [|intros _; by apply Hiff].
    intros Hnot. exfalso. by apply Hnot, Hiff.
  - split; [|split; [done|done]].
    intros Hyes. apply Hiff in Hyes. discriminate.
Qed.

(** * Properties of the upload and context code *)

Lemma update_context_files (st : session_state) :
  uploaded_files (update_context st) = uploaded_files st /\
  file_contents (update_context st) = file_contents st /\
  chat_history (update_context st) = chat_history st.
Proof.
  unfold update_context.
  destruct (uploaded_files st) eqn:Hfiles; simpl; rewrite ?Hfiles; auto.
Qed.

Lemma update_context_context (st : session_state) :
  current_context (update_context st)
  = match uploaded_files st with
    | [] => current_context st
    | _ :: _ => join [NL; NL] (map context_part (uploaded_files st))
    end.
Proof. unfold update_context. by destruct (uploaded_files st). Qed.

Lemma join_length_le (sep : pystr) (parts : list pystr) :
  (length (join sep parts)
   <= list_sum (map (fun p => length p + length sep) parts))%nat.
Proof.
  induction parts as [|p [|q parts] IH]; simpl in *; [lia|lia|].
  rewrite !length_app. lia.
Qed.

Lemma context_part_length (f : file_info) :
  (length (context_part f) <= length (fi_name f) + 1016)%nat.
Proof.
  unfold context_part, lit. rewrite !length_app, length_take.
  pose proof (Nat.le_min_l 1000 (length (fi_content f))) as Hmin.
  revert Hmin. generalize (Nat.min 1000 (length (fi_content f))).
  intros k Hk. simpl. lia.
Qed.

(** X22. While there are uploaded files, the context built from them
    holds at most the first 1000 characters of each file's content: its
    length is at most 1018 characters per file plus the lengths of the
    file names, however large the files are. *)
Theorem update_context_bounded (st : session_state) :
  uploaded_files st <> [] ->
  current_context (update_context st)
  = join [NL; NL] (map context_part (uploaded_files st)) /\
  (length (current_context (update_context st))
   <= list_sum (map (fun f => length (fi_name f) + 1018)
                  (uploaded_files st)))%nat.
Proof.
  intros Hne. rewrite update_context_context.
  destruct (uploaded_files st) as [|f fs] eqn:Hfiles; [done|].
  split; [done|].
  etransitivity; [apply join_length_le|].
  rewrite map_map. generalize (f :: fs). intros l.
  induction l as [|x l IH]; cbn [map length]; [done|].
  unfold list_sum in *. cbn [fold_right].
  change (length [NL; NL]) with 2%nat in IH.
  pose proof (context_part_length x). lia.
Qed.

Lemma update_context_bounded_witness :
  let st := {| chat_history := [];
               uploaded_files :=
                 [ {| fi_name := lit "big.txt"; fi_type := lit "text/plain";
                      fi_size := 5000; fi_content := repeat 97 5000;
                      fi_metadata := ∅; fi_processed_at := [] |} ];
               file_contents := ∅; current_context := [] |} in
  current_context (update_context st)
  = join [NL; NL] (map context_part (uploaded_files st)) /\
  (length (current_context (update_context st))
   <= list_sum (map (fun f => length (fi_name f) + 1018)
                  (uploaded_files st)))%nat.
Proof.
  intros st. apply (update_context_bounded st). discriminate.
Defined.

(** X23. The content preview of a stored file never has more than 303
    characters and agrees with the content on its first 300 characters;
    it is the content itself when that has at most 300 characters, and is
    shorter than the content when that has more than 303. *)
Theorem content_preview_bounded (content : pystr) :
  (length (content_preview content) <= 303)%nat /\
  take 300 (content_preview content) = take 300 content /\
  ((length content <= 300)%nat -> content_preview content = content) /\
  ((303 < length content)%nat ->
   (length (content_preview content) < length content)%nat).
Proof.
  unfold content_preview.
  destruct (Nat.ltb_spec 300 (length content)) as [Hlong|Hshort].
  - assert (length (take 300 content ++ lit "...") = 303%nat) as Hlen.
    { rewrite length_app, length_take.
      change (length (lit "...")) with 3%nat. lia. }
    split; [lia|]. split.
    + rewrite take_app_le by (rewrite length_take; lia).
      by rewrite take_take, Nat.min_id.
    + split; lia.
  - split; [lia|]. split; [done|]. split; [done | lia].
Qed.

Section Uploads.

Variable env : AppEnv.

Lemma process_upload_skip (w : world) (u : UploadedFile) :
  In (up_name u) (stored_names (session w)) \/ storable env u = false ->
  session (process_upload env w u) = session w.
Proof.
  intros Hskip. unfold process_upload, stored_names in *.
  case_bool_decide as Hin; [done|].
  destruct Hskip as [Hold | Hbad]; [by apply list_elem_of_In in Hold|].
  unfold storable in Hbad.
  destruct (up_read u) as [e|b]; [done|].
  destruct (outcome _) as [e|r]; [done|].
  rewrite Hbad. by destruct (error r).
Qed.

Lemma process_upload_store (w : world) (u : UploadedFile) :
  ~ In (up_name u) (stored_names (session w)) ->
  storable env u = true ->
  exists b r,
    up_read u = inr b /\
    outcome (process_file (app_libs env) (app_processor env) (PBytes b)
               (PStr (up_name u)) (PStr (up_type u))) = inr r /\
    success r = true /\
    session (process_upload env w u)
    = stored (session w) u b r (app_clock env (ticks w)).
Proof.
  intros Hnew Hgood. unfold process_upload, storable, stored_names in *.
  case_bool_decide as Hin; [by apply list_elem_of_In in Hin|].
  destruct (up_read u) as [e|b]; [done|].
  destruct (outcome _) as [e|r] eqn:Hout; [done|].
  exists b, r. rewrite Hgood. by repeat split.
Qed.

Lemma consistent_update_context (st : session_state) :
  NoDup (stored_names st) ->
  (forall f, In f (uploaded_files st) ->
     file_contents st !! fi_name f = Some (fi_content f)) ->
  (forall n, is_Some (file_contents st !! n) <-> In n (stored_names st)) ->
  consistent (update_context st).
Proof.
  intros Hdup Hcont Hdom. unfold consistent.
  destruct (update_context_files st) as (Hf & Hc & _).
  rewrite update_context_context, Hf, Hc.
  split; [done|]. split; [done|]. split; [done|].
  by destruct (uploaded_files st).
Qed.

Lemma consistent_stored (st : session_state) (u : UploadedFile)
    (b : pybytes) (r : ExtractionResult) (stamp : pystr) :
  consistent st ->
  ~ In (up_name u) (stored_names st) ->
  consistent (stored st u b r stamp).
Proof.
  intros (Hdup & Hcont & Hdom & _) Hnew. unfold stored.
  apply consistent_update_context; unfold stored_names in *; simpl.
  - rewrite map_app. simpl. apply NoDup_app. split; [done|].
    split; [|apply NoDup_singleton].
    intros n Hn Hn'. apply list_elem_of_In in Hn.
    apply list_elem_of_singleton in Hn'. by subst.
  - intros f Hf. apply in_app_or in Hf as [Hf | [<- | []]].
    + rewrite lookup_insert_ne; [by apply Hcont|].
      intros Heq. apply Hnew. rewrite Heq. by apply in_map.
    + simpl. by rewrite lookup_insert_eq.
  - intros n. rewrite map_app, in_app_iff. simpl.
    destruct (decide (up_name u = n)) as [<-|Hne].
    + rewrite lookup_insert_eq. split; [intros _; right; by left | by eexists].
    + rewrite lookup_insert_ne by done. rewrite Hdom.
      split; [by left | by intros [?|[?|[]]]].
Qed.

Lemma process_upload_consistent (w : world) (u : UploadedFile) :
  consistent (session w) -> consistent (session (process_upload env w u)).
Proof.
  intros Hcons.
  destruct (decide (up_name u ∈ stored_names (session w))) as [Hold|Hnew];
    rewrite list_elem_of_In in *.
  - rewrite process_upload_skip; [done | by left].
  - destruct (storable env u) eqn:Hgood.
    + destruct (process_upload_store w u Hnew Hgood)
        as (b & r & _ & _ & _ & ->).
      by apply consistent_stored.
    + rewrite process_upload_skip; [done | by right].
Qed.

Lemma process_upload_history (w : world) (u : UploadedFile) :
  chat_history (session (process_upload env w u)) = chat_history (session w).
Proof.
  destruct (decide (up_name u ∈ stored_names (session w))) as [Hold|Hnew];
    rewrite list_elem_of_In in *.
  - rewrite process_upload_skip; [done | by left].
  - destruct (storable env u) eqn:Hgood.
    + destruct (process_upload_store w u Hnew Hgood)
        as (b & r & _ & _ & _ & ->).
      unfold stored. by destruct (update_context_files
        {| chat_history := chat_history (session w);
           uploaded_files := uploaded_files (session w)
             ++ [ {| fi_name := up_name u; fi_type := up_type u;
                     fi_size := length b; fi_content := content r;
                     fi_metadata := metadata r;
                     fi_processed_at := app_clock env (ticks w) |} ];
           file_contents := <[up_name u := content r]>
                              (file_contents (session w));
           current_context := current_context (session w) |})
        as (_ & _ & ->).
    + rewrite process_upload_skip; [done | by right].
Qed.

End Uploads.

Lemma initial_session_consistent : consistent initial_session.
Proof.
  unfold consistent, initial_session. simpl.
  split; [constructor|]. split; [done|]. split; [|done].
  intros n. rewrite lookup_empty. split; [by intros [? ?] | done].
Qed.

Lemma fold_upload_consistent (env : AppEnv) (ups : list UploadedFile) :
  forall w : world,
    consistent (session w) ->
    consistent (session (process_uploaded_files env ups w)) /\
    chat_history (session (process_uploaded_files env ups w))
    = chat_history (session w).
Proof.
  unfold process_uploaded_files.
  induction ups as [|u ups IH]; intros w Hcons; simpl; [done|].
  destruct (IH (process_upload env w u)
              (process_upload_consistent env w u Hcons)) as [Hc Hh].
  split; [done|]. by rewrite Hh, process_upload_history.
Qed.

(** X24. Processing uploads keeps the session consistent: the stored
    names stay distinct, [file_contents] maps exactly the stored names,
    each to the content stored for it, and the context is the one built
    from the stored files whenever there is one; the chat history is not
    touched. The session the application starts from is consistent. *)
Theorem process_uploaded_files_consistent (env : AppEnv)
    (ups : list UploadedFile) (w : world) :
  consistent initial_session /\
  (consistent (session w) ->
   consistent (session (process_uploaded_files env ups w)) /\
   chat_history (session (process_uploaded_files env ups w))
   = chat_history (session w)).
Proof.
  split; [apply initial_session_consistent | apply fold_upload_consistent].
Qed.

(** X25. One upload is stored exactly when its name is not stored yet,
    its bytes can be read and [process_file] returns a success result.
    The record appended then holds the extractor's content and metadata
    and the number of bytes read, [file_contents] maps the name to that
    content, and the context is rebuilt from all stored files. In every
    other case (a name already stored, a read error, a failure result)
    the session is left exactly as it was. *)
Theorem process_upload_outcome (env : AppEnv) (w : world) (u : UploadedFile) :
  let st := session w in
  let st' := session (process_upload env w u) in
  if bool_decide (up_name u ∈ stored_names st) || negb (storable env u)
  then st' = st
  else exists b r info,
      up_read u = inr b /\
      outcome (process_file (app_libs env) (app_processor env) (PBytes b)
                 (PStr (up_name u)) (PStr (up_type u))) = inr r /\
      success r = true /\
      uploaded_files st' = uploaded_files st ++ [info] /\
      fi_name info = up_name u /\ fi_content info = content r /\
      fi_metadata info = metadata r /\ fi_size info = length b /\
      file_contents st' = <[up_name u := content r]> (file_contents st) /\
      current_context st'
      = join [NL; NL] (map context_part (uploaded_files st ++ [info])).
Proof.
  intros st st'. subst st st'.
  case_bool_decide as Hin; simpl.
  - apply process_upload_skip. left. by apply list_elem_of_In.
  - rewrite list_elem_of_In in Hin.
    destruct (storable env u) eqn:Hgood; simpl.
    + destruct (process_upload_store env w u Hin Hgood)
        as (b & r & Hread & Hout & Hok & ->).
      exists b, r. eexists. split; [done|]. split; [done|]. split; [done|].
      unfold stored.
      match goal with |- context [update_context ?s] =>
        destruct (update_context_files s) as (-> & -> & _);
        rewrite (update_context_context s) end.
      simpl. split; [reflexivity|]. repeat (split; [reflexivity|]).
      by destruct (uploaded_files (session w)).
    + apply process_upload_skip. by right.
Qed.

Section Rerun.

Variable env : AppEnv.






End Rerun.


(** Two uploads with the same name: only the first is stored. *)
Example process_uploaded_files_same_name :
  stored_names
    (session (process_uploaded_files sample_env
                [ sample_upload "a.txt" [x41]; sample_upload "bad.pdf" [x42];
                  sample_upload "a.txt" [x43] ] empty_world))
  = [lit "a.txt"].
Proof. vm_compute. reflexivity. Qed.

(** ** Removing a file *)

Lemma stored_names_split (files : list file_info) (i : nat) (info : file_info) :
  files !! i = Some info ->
  map fi_name files
  = map fi_name (take i files) ++ fi_name info :: map fi_name (drop (S i) files)
  /\ delete i files = take i files ++ drop (S i) files.
Proof.
  intros Hi. split.
  - rewrite <- (take_drop_middle files i info Hi) at 1.
    by rewrite map_app.
  - apply delete_take_drop.
Qed.

(** X27. In a consistent session, removing the file at a valid position
    raises nothing and leaves a consistent session: the file's name leaves
    both the list and [file_contents], the other files keep their
    entries, and the context is rebuilt from the files that remain. *)
Theorem remove_file_consistent (st : session_state) (i : nat) :
  consistent st ->
  (i < length (uploaded_files st))%nat ->
  exists st' info,
    uploaded_files st !! i = Some info /\
    remove_file i st = (st', None) /\
    consistent st' /\
    uploaded_files st' = delete i (uploaded_files st) /\
    file_contents st' = delete (fi_name info) (file_contents st) /\
    ~ In (fi_name info) (stored_names st').
Proof.
  intros (Hdup & Hcont & Hdom & Hctx) Hi.
  destruct (lookup_lt_is_Some_2 _ _ Hi) as [info Hinfo].
  assert (In info (uploaded_files st)) as Hin.
  { apply list_elem_of_In. by eapply list_elem_of_lookup_2. }
  destruct (stored_names_split _ _ _ Hinfo) as [Hnames Hdel].
  assert (NoDup (map fi_name (delete i (uploaded_files st)))
          /\ ~ In (fi_name info) (map fi_name (delete i (uploaded_files st))))
    as [Hdup' Hfresh].
  { rewrite Hnames in Hdup. rewrite Hdel, map_app.
    apply NoDup_app in Hdup as (Hd1 & Hd12 & Hd2).
    apply NoDup_cons in Hd2 as [Hd2 Hd3].
    split.
    - apply NoDup_app. split; [done|]. split; [|done].
      intros n Hn Hn'. apply (Hd12 n Hn). by right.
    - rewrite in_app_iff, <- !list_elem_of_In. intros [Hn|Hn]; [|done].
      apply (Hd12 _ Hn). by left. }
  set (st0 := {| chat_history := chat_history st;
                 uploaded_files := delete i (uploaded_files st);
                 file_contents := delete (fi_name info) (file_contents st);
                 current_context := current_context st |}).
  exists (update_context st0), info.
  split; [done|]. split.
  { unfold remove_file. rewrite Hinfo, (Hcont info Hin). reflexivity. }
  destruct (update_context_files st0) as (Hf & Hc & _).
  assert (forall n, In n (map fi_name (delete i (uploaded_files st)))
                    <-> n <> fi_name info /\ In n (stored_names st)) as Hrest.
  { intros n. unfold stored_names. rewrite Hnames, Hdel, map_app.
    rewrite !in_app_iff. simpl. split.
    - intros Hn. split; [|tauto].
      intros ->. apply Hfresh. rewrite Hdel, map_app. by apply in_app_iff.
    - intros [Hne [H|[H|H]]]; [by left | by subst | by right]. }
  split; [|split; [exact Hf | split; [exact Hc|]];
           unfold stored_names; rewrite Hf; exact Hfresh].
  apply consistent_update_context; unfold stored_names; simpl.
  - done.
  - intros f Hf'. assert (fi_name f <> fi_name info) as Hne.
    { intros Heq. apply Hfresh. rewrite <- Heq. by apply in_map. }
    rewrite lookup_delete_ne by done. apply Hcont.
    rewrite Hdel in Hf'. rewrite <- (take_drop_middle _ _ _ Hinfo).
    apply in_app_or in Hf' as [H|H]; apply in_or_app; [by left|].
    right. by right.
  - intros n. rewrite Hrest.
    destruct (decide (fi_name info = n)) as [<-|Hne].
    + rewrite lookup_delete_eq. split; [by intros [? ?] | by intros [? _]].
    + rewrite lookup_delete_ne by done. rewrite Hdom.
      split; [by split | by intros [_ ?]].
Qed.

Lemma remove_file_consistent_witness :
  let st := session (process_uploaded_files sample_env
                       [ sample_upload "a.txt" [x41];
                         sample_upload "b.txt" [x42] ] empty_world) in
  exists st' info,
    uploaded_files st !! 0%nat = Some info /\
    remove_file 0 st = (st', None) /\
    consistent st' /\
    uploaded_files st' = delete 0%nat (uploaded_files st) /\
    file_contents st' = delete (fi_name info) (file_contents st) /\
    ~ In (fi_name info) (stored_names st').
Proof.
  intros st. apply (remove_file_consistent st 0).
  - apply (fold_upload_consistent sample_env _ empty_world).
    apply initial_session_consistent.
  - vm_compute. lia.
Defined.

(** X28. Removing the only stored file empties the list and
    [file_contents] but leaves the context as it was: the context, which
    is what the AI engine is sent, still holds the removed file's name and
    the first 1000 characters of its content. *)
Theorem remove_last_file_keeps_context (st : session_state)
    (info : file_info) :
  consistent st ->
  uploaded_files st = [info] ->
  exists st',
    remove_file 0 st = (st', None) /\
    uploaded_files st' = [] /\
    file_contents st' = ∅ /\
    current_context st' = current_context st /\
    current_context st' = context_part info.
Proof.
  intros Hcons Hone.
  destruct Hcons as (Hdup & Hcont & Hdom & Hctx).
  assert (file_contents st !! fi_name info = Some (fi_content info)) as Hinfo.
  { apply Hcont. rewrite Hone. by left. }
  eexists. split.
  { unfold remove_file. rewrite Hone. simpl. rewrite Hinfo. reflexivity. }
  simpl. split; [done|]. split; [|split; [done|]].
  - apply map_eq. intros n. rewrite lookup_empty.
    destruct (decide (fi_name info = n)) as [<-|Hne];
      [apply lookup_delete_eq|].
    rewrite lookup_delete_ne by done.
    destruct (file_contents st !! n) as [c|] eqn:Hn; [|done].
    assert (In n (map fi_name (uploaded_files st))) as Hin
      by (apply Hdom; by eexists).
    rewrite Hone in Hin. simpl in Hin. by destruct Hin.
  - rewrite Hctx by (by rewrite Hone). by rewrite Hone.
Qed.

Lemma remove_last_file_keeps_context_witness :
  let st := session (process_uploaded_files sample_env
                       [ sample_upload "a.txt" [x41] ] empty_world) in
  exists st',
    remove_file 0 st = (st', None) /\
    uploaded_files st' = [] /\
    file_contents st' = ∅ /\
    current_context st' = current_context st /\
    current_context st'
    = lit "File: a.txt" ++ [NL] ++ lit "Content: A".
Proof.
  intros st.
  destruct (remove_last_file_keeps_context st
              {| fi_name := lit "a.txt";
                 fi_type := lit "application/octet-stream";
                 fi_size := 1; fi_content := [65];
                 fi_metadata :=
                   {[ "lines" := PInt 1; "characters" := PInt 1 ]};
                 fi_processed_at := lit "2024-01-01 00:00" |})
    as (st' & H1 & H2 & H3 & H4 & H5).
  - apply (fold_upload_consistent sample_env _ empty_world).
    apply initial_session_consistent.
  - reflexivity.
  - exists st'. split; [done|]. split; [done|]. split; [done|].
    split; [done|]. rewrite H5. reflexivity.
Defined.

Lemma process_uploaded_files_consistent_witness :
  consistent
    (session (process_uploaded_files sample_env
                [ sample_upload "a.txt" [x41]; sample_upload "a.txt" [x42] ]
                empty_world)).
Proof.
  apply (proj2 (process_uploaded_files_consistent sample_env
                  [ sample_upload "a.txt" [x41]; sample_upload "a.txt" [x42] ]
                  empty_world)).
  apply initial_session_consistent.
Defined.
